(** * Retrieval core of the PDF summarizer: chat service and vector service

    A shallow embedding of [backend/services/chat_service.py] and
    [backend/services/vector_service.py].

    Conventions of the embedding.
    - A Python [str] is a [list ascii]; [str.lower], [str.title], [\w], [\b],
      [isalpha] and [isdigit] are given on the ASCII range, bytes above 127
      are neither letters nor digits nor word characters.
    - A Python [float] is an exact rational of [Q]; rounding is not modelled.
      Equalities between computed scores are stated with [==] on [Q].
    - [self.chat_sessions] is a [gmap string (list ChatMessage)].
    - The ChromaDB collection is an insertion-ordered list of stored rows
      (module [Chroma]); it is a third-party store, modelled after its
      documented behaviour.
    - A [try ... except Exception] block is a computation in [outcome] whose
      [Raised] case is mapped to the value the handler returns. *)

From Stdlib Require Import Ascii QArith Qminmax.
From stdpp Require Import gmap strings list fin_maps pretty sorting.

#[local] Open Scope list_scope.
#[local] Open Scope nat_scope.

(** ** Python strings *)

Module Py.

Abbreviation str := (list ascii).

Definition s (lit : string) : str := String.list_ascii_of_string lit.

Definition is_upper (c : ascii) : bool :=
  let n := nat_of_ascii c in (65 <=? n) && (n <=? 90).

Definition is_lower (c : ascii) : bool :=
  let n := nat_of_ascii c in (97 <=? n) && (n <=? 122).

Definition isalpha (c : ascii) : bool := is_upper c || is_lower c.

Definition isdigit (c : ascii) : bool :=
  let n := nat_of_ascii c in (48 <=? n) && (n <=? 57).

(** [\w]: letters, digits and the underscore. *)
Definition is_word (c : ascii) : bool :=
  isalpha c || isdigit c || (nat_of_ascii c =? 95).

Definition lower_char (c : ascii) : ascii :=
  if is_upper c then ascii_of_nat (nat_of_ascii c + 32) else c.

Definition upper_char (c : ascii) : ascii :=
  if is_lower c then ascii_of_nat (nat_of_ascii c - 32) else c.

(** [x.lower()] *)
Definition lower (x : str) : str := map lower_char x.

Definition eqb_char (a b : ascii) : bool := Ascii.eqb a b.

Fixpoint eqb (a b : str) : bool :=
  match a, b with
  | [], [] => true
  | x :: a', y :: b' => eqb_char x y && eqb a' b'
  | _, _ => false
  end.

Fixpoint startswith (x p : str) : bool :=
  match p, x with
  | [], _ => true
  | _ :: _, [] => false
  | c :: p', d :: x' => eqb_char c d && startswith x' p'
  end.

(** [needle in hay] *)
Fixpoint contains (hay needle : str) : bool :=
  startswith hay needle ||
  match hay with
  | [] => false
  | _ :: hay' => contains hay' needle
  end.

(** [any(k in x for k in keys)] *)
Definition any_in (keys : list str) (x : str) : bool :=
  existsb (contains x) keys.

(** [x.title()]: the first letter of every run of letters is upper-cased,
    the others lower-cased. *)
Fixpoint title_from (prev_cased : bool) (x : str) : str :=
  match x with
  | [] => []
  | c :: x' =>
      if isalpha c
      then (if prev_cased then lower_char c else upper_char c) :: title_from true x'
      else c :: title_from false x'
  end.

Definition title (x : str) : str := title_from false x.

(** [sep.join(parts)] *)
Fixpoint join (sep : str) (parts : list str) : str :=
  match parts with
  | [] => []
  | [p] => p
  | p :: rest => p ++ sep ++ join sep rest
  end.

(** [l[-n:]] for a positive literal [n]. *)
Definition last_n {A} (n : nat) (l : list A) : list A :=
  drop (length l - n) l.

Definition newline : str := [ascii_of_nat 10].

(** The characters of the ASCII range. *)
Definition is_ascii (c : ascii) : bool := nat_of_ascii c <? 128.

(** The whitespace of [str.strip()] on the ASCII range: tab to carriage
    return, the four separators 28 to 31, and the space. *)
Definition isspace (c : ascii) : bool :=
  let n := nat_of_ascii c in
  ((9 <=? n) && (n <=? 13)) || ((28 <=? n) && (n <=? 32)).

Fixpoint lstrip (x : str) : str :=
  match x with
  | c :: x' => if isspace c then lstrip x' else x
  | [] => []
  end.

(** [x.strip()] *)
Definition strip (x : str) : str := rev (lstrip (rev (lstrip x))).

End Py.

(** ** Models ([backend/models.py]) *)

Record ChatMessage := {
  role : Py.str;
  content : Py.str;
  timestamp : nat;
  sources : list Py.str
}.

Record ChatResponse := {
  response : Py.str;
  resp_sources : list Py.str;
  confidence : Q;
  has_context : bool
}.

Record DocumentInfo := {
  info_id : Py.str;
  info_filename : Py.str;
  info_file_type : Py.str;
  info_upload_time : nat;
  info_chunk_count : nat;
  info_has_visual_content : option bool;
  info_visual_elements_count : option nat
}.


(** ** Chat history of [ChatService] *)

Module History.

Abbreviation sessions := (gmap string (list ChatMessage)).

Definition reference_indicators : list Py.str :=
  map Py.s
    ["who did you mention"; "what did you say"; "tell me more"; "more about";
     "what about"; "how about"; "and what"; "also"; "additionally";
     "that person"; "they"; "them"; "he"; "she"; "it"; "this";
     "previous"; "before"; "earlier"; "above"; "that"; "those"]%string.

Definition _query_references_previous_context (query : Py.str) : bool :=
  Py.any_in reference_indicators (Py.lower query).

(** One line of the conversation context, [f"{role.title()}: {content}"]
    with [content = msg.content[:200]]. *)
Definition context_line (msg : ChatMessage) : Py.str :=
  Py.title (role msg) ++ Py.s ": " ++ take 200 (content msg).

Definition _get_conversation_context
    (chat_sessions : sessions) (session_id : string) (current_query : Py.str)
    : Py.str :=
  match chat_sessions !! session_id with
  | None => []
  | Some [] => []
  | Some history =>
      let recent_messages := Py.last_n 6 history in
      if negb (_query_references_previous_context current_query) then []
      else
        let context_parts := map context_line recent_messages in
        match context_parts with
        | [] => []
        | _ => Py.join Py.newline context_parts
        end
  end.

Definition _update_chat_history
    (chat_sessions : sessions) (session_id : string)
    (query response : Py.str) (srcs : list Py.str) (now1 now2 : nat)
    : sessions :=
  let chat_sessions :=
    match chat_sessions !! session_id with
    | None => <[session_id := []]> chat_sessions
    | Some _ => chat_sessions
    end in
  let user_message :=
    {| role := Py.s "user"; content := query;
       timestamp := now1; sources := [] |} in
  let assistant_message :=
    {| role := Py.s "assistant"; content := response;
       timestamp := now2; sources := srcs |} in
  let extended :=
    default [] (chat_sessions !! session_id)
      ++ [user_message; assistant_message] in
  let chat_sessions := <[session_id := extended]> chat_sessions in
  if 20 <? length extended
  then <[session_id := Py.last_n 20 extended]> chat_sessions
  else chat_sessions.

Definition get_chat_history (chat_sessions : sessions) (session_id : string)
    : list ChatMessage :=
  default [] (chat_sessions !! session_id).

Definition clear_chat_history (chat_sessions : sessions) (session_id : string)
    : sessions :=
  match chat_sessions !! session_id with
  | Some _ => delete session_id chat_sessions
  | None => chat_sessions
  end.

Definition clear_all_sessions (chat_sessions : sessions) : sessions := ∅.

(** The operations of the service that write [chat_sessions]. *)
Inductive mutation :=
  | Update (session_id : string) (query response : Py.str)
           (srcs : list Py.str) (now1 now2 : nat)
  | ClearHistory (session_id : string)
  | ClearAll.

Definition apply_mutation (m : mutation) (cs : sessions) : sessions :=
  match m with
  | Update sid q r srcs t1 t2 => _update_chat_history cs sid q r srcs t1 t2
  | ClearHistory sid => clear_chat_history cs sid
  | ClearAll => clear_all_sessions cs
  end.

(** What [_update_chat_history] keeps of the extended history. *)
Definition trimmed (extended : list ChatMessage) : list ChatMessage :=
  if 20 <? length extended then Py.last_n 20 extended else extended.

(** Every stored history holds at most 20 messages. *)
Definition bounded (cs : sessions) : Prop :=
  ∀ sid h, cs !! sid = Some h → length h ≤ 20.

End History.

(** ** Exceptions

    [Raised e] is a Python exception with message [e]; [handle] is the
    [except Exception as e] clause. *)

Inductive outcome (A : Type) :=
  | Ok (a : A)
  | Raised (e : Py.str).
Arguments Ok {A} a.
Arguments Raised {A} e.

#[global] Instance outcome_ret : MRet outcome := @Ok.
#[global] Instance outcome_bind : MBind outcome := λ A B f m,
  match m with
  | Ok a => f a
  | Raised e => Raised e
  end.

Definition handle {A} (m : outcome A) (handler : Py.str → A) : A :=
  match m with
  | Ok a => a
  | Raised e => handler e
  end.

(** [a / b] on numbers: [ZeroDivisionError] when [b] is zero. *)
Definition truediv (a b : Q) : outcome Q :=
  if Qeq_bool b 0 then Raised (Py.s "division by zero") else Ok (a / b)%Q.

Definition of_nat (n : nat) : Q := inject_Z (Z.of_nat n).

(** ** The regular expressions of the two services

    Each pattern is a matcher that, given the character before the current
    position and the rest of the text, returns the length of the match that
    starts there.  The repetitions [[a-z]+], [[a-z]{2,}] and [\w+] are
    greedy, and in these patterns what follows a repetition (a space, or a
    word boundary) can only be found after the longest run, so the longest
    run is the only candidate the backtracking matcher accepts. *)

Module Re.

(** Number of leading characters of [x] that satisfy [p]. *)
Fixpoint run (p : ascii → bool) (x : Py.str) : nat :=
  match x with
  | c :: x' => if p c then S (run p x') else 0
  | [] => 0
  end.

(** [\b] in front of a word character. *)
Definition boundary_before (prev : option ascii) : bool :=
  match prev with
  | None => true
  | Some c => negb (Py.is_word c)
  end.

(** [\b] behind a word character. *)
Definition boundary_after (rest : Py.str) : bool :=
  match rest with
  | [] => true
  | c :: _ => negb (Py.is_word c)
  end.

Definition space : ascii := ascii_of_nat 32.

(** [\b[A-Z][a-z]+ [A-Z][a-z]+\b] *)
Definition full_name (prev : option ascii) (x : Py.str) : option nat :=
  match x with
  | c :: x1 =>
      if boundary_before prev && Py.is_upper c then
        let n1 := run Py.is_lower x1 in
        if n1 =? 0 then None
        else
          match drop n1 x1 with
          | sp :: c2 :: x2 =>
              if Py.eqb_char sp space && Py.is_upper c2 then
                let n2 := run Py.is_lower x2 in
                if (n2 =? 0) || negb (boundary_after (drop n2 x2)) then None
                else Some (1 + n1 + 2 + n2)
              else None
          | _ => None
          end
      else None
  | [] => None
  end.

(** [\b[A-Z][a-z]{2,}\b] *)
Definition single_name (prev : option ascii) (x : Py.str) : option nat :=
  match x with
  | c :: x1 =>
      if boundary_before prev && Py.is_upper c then
        let n := run Py.is_lower x1 in
        if (2 <=? n) && boundary_after (drop n x1) then Some (1 + n) else None
      else None
  | [] => None
  end.

(** [\w+] *)
Definition word (prev : option ascii) (x : Py.str) : option nat :=
  let n := run Py.is_word x in
  if n =? 0 then None else Some n.

(** [\d{4}] *)
Definition four_digits (prev : option ascii) (x : Py.str) : option nat :=
  match x with
  | a :: b :: c :: d :: _ =>
      if Py.isdigit a && Py.isdigit b && Py.isdigit c && Py.isdigit d
      then Some 4 else None
  | _ => None
  end.

(** [re.findall]: the matches from left to right, scanning resumed behind
    each match; [skip] counts the characters of the current match still to
    pass. *)
Fixpoint findall_from (pat : option ascii → Py.str → option nat)
    (prev : option ascii) (skip : nat) (x : Py.str) : list Py.str :=
  match x with
  | [] => []
  | c :: x' =>
      match skip with
      | S k => findall_from pat (Some c) k x'
      | O =>
          match pat prev x with
          | Some n => take n x :: findall_from pat (Some c) (n - 1) x'
          | None => findall_from pat (Some c) 0 x'
          end
      end
  end.

Definition findall (pat : option ascii → Py.str → option nat) (x : Py.str)
    : list Py.str :=
  findall_from pat None 0 x.

(** [bool(re.search(pat, x))] *)
Fixpoint search_from (pat : option ascii → Py.str → option nat)
    (prev : option ascii) (x : Py.str) : bool :=
  match x with
  | [] => false
  | c :: x' => bool_decide (is_Some (pat prev x)) || search_from pat (Some c) x'
  end.

Definition search (pat : option ascii → Py.str → option nat) (x : Py.str)
    : bool :=
  search_from pat None x.

End Re.

(** ** The vector store

    ChromaDB is a third-party store.  Its collection is modelled as the list
    of stored rows in insertion order, with the operations the service
    calls: [query] (the [n_results] nearest rows by squared Euclidean
    distance, the default space of a collection, nearest first, insertion
    order among equals; a non-positive [n_results] is rejected), [get],
    [delete] and [count]. *)

Inductive scalar :=
  | SStr (v : Py.str)
  | SInt (v : Z)
  | SBool (v : bool).

#[global] Instance scalar_eq_dec : EqDecision scalar.
Proof. solve_decision. Defined.

Abbreviation metadata := (gmap string scalar).

Module Chroma.

Record row := {
  row_id : Py.str;
  row_document : Py.str;
  row_metadata : metadata;
  row_embedding : list Q
}.

Abbreviation collection := (list row).

Definition sq_diff (a b : Q) : Q := ((a - b) * (a - b))%Q.

Definition distance (a b : list Q) : Q :=
  foldr Qplus 0%Q (zip_with sq_diff a b).

(** Insertion of an earlier row in front of the later rows that are not
    strictly nearer: a stable sort. *)
Fixpoint insert_by_distance {A} (x : A * Q) (l : list (A * Q)) : list (A * Q) :=
  match l with
  | [] => [x]
  | y :: l' =>
      if Qle_bool x.2 y.2 then x :: y :: l'
      else y :: insert_by_distance x l'
  end.

Definition nearest_first {A} (l : list (A * Q)) : list (A * Q) :=
  foldr insert_by_distance [] l.

(** [collection.query(query_embeddings=[e], n_results=n,
    include=["documents", "metadatas", "distances"])]: the zipped triples
    of the single result row. *)
Definition query (c : collection) (e : list Q) (n_results : Z)
    : outcome (list (Py.str * metadata * Q)) :=
  if (n_results <=? 0)%Z
  then Raised (Py.s "Number of requested results cannot be negative, or zero.")
  else
    Ok (take (Z.to_nat n_results)
          (nearest_first
             (map (λ r, (row_document r, row_metadata r,
                         distance e (row_embedding r))) c))).

(** [collection.get(where={"doc_id": doc_id})] *)
Definition get_where_doc_id (c : collection) (doc_id : Py.str) : collection :=
  filter (λ r, row_metadata r !! "doc_id"%string = Some (SStr doc_id)) c.

(** [collection.delete(ids=ids)] *)
Definition delete (c : collection) (ids : list Py.str) : collection :=
  filter (λ r, row_id r ∉ ids) c.

Definition count (c : collection) : nat := length c.

(** [collection.add(documents, metadatas, ids, embeddings)]: the rows are
    appended in order; a row whose id is already stored is ignored. *)
Definition add (c : collection) (rows : list row) : collection :=
  c ++ filter (λ r, row_id r ∉ map row_id c) rows.

End Chroma.

(** A retrieved chunk: the dict with keys [content], [metadata], [score]. *)
Record Doc := {
  doc_content : Py.str;
  doc_metadata : metadata;
  doc_score : Q
}.

(** A chunk handed over by the ingestion: [page_content] and [metadata]. *)
Record Document := {
  page_content : Py.str;
  metadata_of : metadata
}.

(** ** [VectorService] *)

Module VectorService.

(** [self.collection]; [None] before initialisation.  A collection object
    is truthy whatever it holds, so [if not self.collection] tests for
    [None] only. *)
Record t := { collection : option Chroma.collection }.

Definition visual_words : list Py.str :=
  map Py.s ["figure"; "diagram"; "image"; "chart"; "graph"; "illustration"]%string.

(** The keys of [crm_keywords], in the order of the dict literal. *)
Definition crm_keywords : list (Py.str * nat) :=
  map (λ k, (Py.s k, 0))
    ["react"; "node"; "mongodb"; "aws"; "oauth";
     "backend"; "frontend"; "api"; "database";
     "developer"; "delay"; "vendor"; "approval";
     "approved"; "ramesh"; "iyer"; "meera"; "nair"; "cto";
     "adoption"; "metrics"; "pipeline"; "mobile";
     "support"; "tickets"; "testing"; "jest";
     "security"; "rbac"; "encryption"; "module";
     "lead"; "contact"; "opportunity"; "email";
     "campaign"; "analytics"; "dashboard"; "functional";
     "april"; "started"; "final"; "release"; "uat";
     "anjali"; "mukherjee"; "qa"; "quality"; "assurance";
     "vishal"; "menon"; "devika"; "sharma"; "arjun";
     "mehta"; "kavya"; "rathi"; "neeraj"; "kapoor";
     "ayesha"; "khan"; "priya"; "deshmukh"; "role"]%string.

Definition important_bigrams : list (Py.str * nat) :=
  map (λ k, (Py.s k, 0))
    ["backend_developer"; "email_campaign"; "final_approval";
     "post_release"; "user_adoption"; "support_tickets";
     "pipeline_visibility"; "mobile_usage"; "tech_stack";
     "project_delayed"; "technology_stack"]%string.

(** [if w in d: d[w] += 1] on an insertion-ordered dict. *)
Fixpoint bump (w : Py.str) (d : list (Py.str * nat)) : list (Py.str * nat) :=
  match d with
  | [] => []
  | (k, n) :: d' => if Py.eqb k w then (k, S n) :: d' else (k, n) :: bump w d'
  end.

Definition count_into (d : list (Py.str * nat)) (ws : list Py.str)
    : list (Py.str * nat) :=
  fold_left (λ d w, bump w d) ws d.

(** [[f"{words[i]}_{words[i+1]}" for i in range(len(words)-1)]] *)
Definition bigrams_of (words : list Py.str) : list Py.str :=
  zip_with (λ a b, a ++ Py.s "_" ++ b) words (tail words).

(** The loop filling [char_counts]. *)
Definition count_chars (text_lower : Py.str) : gmap ascii nat :=
  fold_left
    (λ char_counts char,
       if Py.isalpha char
       then <[char := default 0 (char_counts !! char) + 1]> char_counts
       else char_counts)
    text_lower ∅.

(** [sum(d.values())] *)
Definition sum_values (d : gmap ascii nat) : nat :=
  map_fold (λ _ v acc, v + acc) 0 d.

(** [n or 1] *)
Definition or_1 (n : nat) : nat := if n =? 0 then 1 else n.

Definition flag (b : bool) : Q := if b then 1%Q else 0%Q.

Definition target_size : nat := 384.

(** The three denominators of the feature computation. *)
Definition total_words (words : list Py.str) : nat := or_1 (length words).
Definition total_bigrams (bigrams : list Py.str) : nat := Nat.max (length bigrams) 1.
Definition total_chars (char_counts : gmap ascii nat) : nat :=
  or_1 (sum_values char_counts).

(** The body of the loop of [_generate_improved_embeddings] for one text. *)
Definition embed (text : Py.str) : outcome (list Q) :=
  let text_lower := Py.lower text in
  let words := Re.findall Re.word text_lower in
  let length_feature := Qmin (of_nat (length text) / 2000) 1 in
  let word_count_feature := Qmin (of_nat (length words) / 200) 1 in
  let has_visual_content := flag (Py.any_in visual_words text_lower) in
  let is_visual_chunk :=
    flag (Py.contains text_lower (Py.s "visual")
          && (Py.contains text_lower (Py.s "description:")
              || Py.contains text_lower (Py.s "caption:"))) in
  let keyword_counts := count_into crm_keywords words in
  keyword_features ←
    mapM (λ kc : Py.str * nat, truediv (of_nat kc.2) (of_nat (total_words words)))
         keyword_counts;
  let bigrams := bigrams_of words in
  let bigram_counts := count_into important_bigrams bigrams in
  bigram_features ←
    mapM (λ kc : Py.str * nat, truediv (of_nat kc.2) (of_nat (total_bigrams bigrams)))
         bigram_counts;
  let char_counts := count_chars text_lower in
  char_features ←
    mapM (λ char, truediv (of_nat (default 0 (char_counts !! char)))
                          (of_nat (total_chars char_counts)))
         (Py.s "aeioutrnslc");
  let has_numbers := flag (existsb Py.isdigit text) in
  let has_dates := flag (Re.search Re.four_digits text) in
  let has_percentages := flag (Py.contains text (Py.s "%")) in
  let embedding :=
    [length_feature; word_count_feature; has_numbers; has_dates;
     has_percentages; has_visual_content; is_visual_chunk]
    ++ keyword_features ++ bigram_features ++ char_features in
  mret (if length embedding <? target_size
        then embedding ++ replicate (target_size - length embedding) 0%Q
        else take target_size embedding).

Definition _generate_improved_embeddings (texts : list Py.str)
    : outcome (list (list Q)) :=
  mapM embed texts.

(** The loop over the zipped query results. *)
Fixpoint process_results (score_threshold : Q)
    (rows : list (Py.str * metadata * Q))
    (documents : list Doc) (scores : list Q) : outcome (list Doc * list Q) :=
  match rows with
  | [] => mret (documents, scores)
  | (doc, md, dist) :: rows' =>
      similarity_score ← truediv 1 (1 + dist);
      if Qle_bool score_threshold similarity_score then
        let doc_result :=
          {| doc_content := doc; doc_metadata := md;
             doc_score := similarity_score |} in
        process_results score_threshold rows'
          (documents ++ [doc_result]) (scores ++ [similarity_score])
      else process_results score_threshold rows' documents scores
  end.

Definition similarity_search_try (svc : t) (query : Py.str) (top_k : Z)
    (score_threshold : Q) : outcome (list Doc * list Q) :=
  match collection svc with
  | None => mret ([], [])
  | Some c =>
      embeddings ← _generate_improved_embeddings [query];
      query_embedding ←
        match embeddings with
        | e :: _ => Ok e
        | [] => Raised (Py.s "list index out of range")
        end;
      results ← Chroma.query c query_embedding top_k;
      process_results score_threshold results [] []
  end.

Definition similarity_search (svc : t) (query : Py.str) (top_k : Z)
    (score_threshold : Q) : list Doc * list Q :=
  handle (similarity_search_try svc query top_k score_threshold)
         (λ _, ([], [])).

Inductive collection_info :=
  | NotInitialized
  | Active (document_count : nat).

Definition get_collection_info (svc : t) : collection_info :=
  match collection svc with
  | None => NotInitialized
  | Some c => Active (Chroma.count c)
  end.

(** The store operations below call only [get] and [delete] of the
    collection, which do not raise in the model of the store. *)

Definition clear_collection (svc : t) : t * (bool * Py.str) :=
  match collection svc with
  | Some c =>
      let all_ids := map Chroma.row_id c in
      match all_ids with
      | _ :: _ =>
          ({| collection := Some (Chroma.delete c all_ids) |},
           (true, Py.s "Collection cleared successfully"))
      | [] => (svc, (true, Py.s "Collection was already empty"))
      end
  | None => (svc, (false, Py.s "Collection not initialized"))
  end.

Definition delete_document (svc : t) (doc_id : Py.str) : t * (bool * Py.str) :=
  match collection svc with
  | None => (svc, (false, Py.s "Collection not initialized"))
  | Some c =>
      let ids := map Chroma.row_id (Chroma.get_where_doc_id c doc_id) in
      match ids with
      | _ :: _ =>
          ({| collection := Some (Chroma.delete c ids) |},
           (true, Py.s "Deleted " ++ Py.s (pretty (length ids))
                  ++ Py.s " document chunks"))
      | [] => (svc, (true, Py.s "No chunks found for this document"))
      end
  end.

Definition name_keywords : list Py.str :=
  map Py.s
    ["ramesh"; "iyer"; "meera"; "nair"; "priya"; "deshmukh";
     "anjali"; "mukherjee"; "vishal"; "menon"; "devika"; "sharma";
     "arjun"; "mehta"; "kavya"; "rathi"; "neeraj"; "kapoor";
     "ayesha"; "khan"; "cto"; "qa lead"; "project manager";
     "head of operations"; "developer"; "tester"]%string.

(** The terms found by the two name patterns. *)
Definition name_terms (query : Py.str) : list Py.str :=
  Re.findall Re.full_name query ++ Re.findall Re.single_name query.

(** The keywords of the fixed list that occur in the lowercased query. *)
Definition keyword_terms (query : Py.str) : list Py.str :=
  filter (λ keyword, Is_true (Py.contains (Py.lower query) keyword))
         name_keywords.

Definition search_terms (query : Py.str) : list Py.str :=
  match name_terms query ++ keyword_terms query with
  | [] => [Py.lower query]
  | terms => terms
  end.

(** The inner loop over the search terms for one chunk. *)
Definition match_score (terms : list Py.str) (content_lower : Py.str) : Q :=
  fold_left
    (λ match_score term,
       if Py.contains content_lower (Py.lower term) then
         if Py.eqb (Py.lower term) term
         then Qmax match_score (95 # 100)
         else Qmax match_score (9 # 10)
       else match_score)
    terms 0%Q.

(** The matches in the order of the store, before sorting.  The loop is
    guarded by the lists of documents and metadata being non-empty; on an
    empty store it has nothing to visit. *)
Definition text_matches (terms : list Py.str) (c : Chroma.collection)
    : list Doc :=
  omap (λ r,
          let sc := match_score terms (Py.lower (Chroma.row_document r)) in
          if negb (Qle_bool sc 0)
          then Some {| doc_content := Chroma.row_document r;
                       doc_metadata := Chroma.row_metadata r;
                       doc_score := sc |}
          else None) c.

(** [matches.sort(key=lambda x: x["score"], reverse=True)]: stable. *)
Fixpoint insert_by_score (x : Doc) (l : list Doc) : list Doc :=
  match l with
  | [] => [x]
  | y :: l' =>
      if Qle_bool (doc_score y) (doc_score x) then x :: y :: l'
      else y :: insert_by_score x l'
  end.

Definition sort_by_score (l : list Doc) : list Doc :=
  foldr insert_by_score [] l.

Definition text_search_fallback (svc : t) (query : Py.str) : list Doc :=
  match collection svc with
  | None => []
  | Some c =>
      let search_terms := search_terms query in
      let matches := text_matches search_terms c in
      take 10 (sort_by_score matches)
  end.

(** [f"{doc_id}_chunk_{i}"] *)
Definition chunk_id (doc_id : Py.str) (i : nat) : Py.str :=
  doc_id ++ Py.s "_chunk_" ++ Py.s (pretty i).

(** The copy of the chunk metadata, updated with [doc_id], [chunk_index]
    and [text_length]. *)
Definition chunk_metadata (doc_id : Py.str) (i : nat) (doc : Document)
    : metadata :=
  <["text_length"%string := SInt (Z.of_nat (length (page_content doc)))]>
    (<["chunk_index"%string := SInt (Z.of_nat i)]>
       (<["doc_id"%string := SStr doc_id]> (metadata_of doc))).

(** The rows passed to [collection.add]: the four parallel lists, zipped. *)
Definition rows_of (ids texts : list Py.str) (metadatas : list metadata)
    (embeddings : list (list Q)) : list Chroma.row :=
  zip_with
    (λ (it : Py.str * Py.str) (me : metadata * list Q),
       {| Chroma.row_id := it.1; Chroma.row_document := it.2;
          Chroma.row_metadata := me.1; Chroma.row_embedding := me.2 |})
    (zip ids texts) (zip metadatas embeddings).

Definition add_documents_try (svc : t) (documents : list Document)
    (doc_id : Py.str) : outcome (t * (bool * Py.str)) :=
  match documents with
  | [] => mret (svc, (false, Py.s "No documents to add"))
  | _ =>
      let texts := map page_content documents in
      let ids := imap (λ i _, chunk_id doc_id i) documents in
      let metadatas := imap (chunk_metadata doc_id) documents in
      embeddings ← _generate_improved_embeddings texts;
      let svc' :=
        match collection svc with
        | Some c =>
            {| collection :=
                 Some (Chroma.add c (rows_of ids texts metadatas embeddings)) |}
        | None => svc
        end in
      mret (svc',
            (true, Py.s "Successfully added " ++ Py.s (pretty (length documents))
                   ++ Py.s " document chunks"))
  end.

Definition add_documents (svc : t) (documents : list Document)
    (doc_id : Py.str) : t * (bool * Py.str) :=
  handle (add_documents_try svc documents doc_id)
         (λ e, (svc, (false, Py.s "Failed to add documents: " ++ e))).

(** *** Notions used to state the properties of the search *)

(** The scoring rule of the text search as the specification words it: the
    first search term found in the chunk decides, [0.95] for a term of the
    fixed keyword list and [0.9] for a term found by a name pattern. *)
Definition first_match_score (query : Py.str) (content_lower : Py.str) : Q :=
  match find (λ term, Py.contains content_lower (Py.lower term))
             (search_terms query) with
  | Some term => if bool_decide (term ∈ name_keywords) then 95 # 100 else 9 # 10
  | None => 0
  end.

(** The query results with their similarity scores, before the threshold
    is applied. *)
Definition scored_rows (rows : list (Py.str * metadata * Q))
    : outcome (list Doc) :=
  mapM (λ row : Py.str * metadata * Q,
          similarity_score ← truediv 1 (1 + row.2);
          mret {| doc_content := row.1.1; doc_metadata := row.1.2;
                  doc_score := similarity_score |})
       rows.

(** The candidates of a search: the [top_k] nearest chunks with their
    scores; none when the search raises. *)
Definition candidates (svc : t) (query : Py.str) (top_k : Z) : list Doc :=
  handle
    (match collection svc with
     | None => mret []
     | Some c =>
         embeddings ← _generate_improved_embeddings [query];
         query_embedding ←
           match embeddings with
           | e :: _ => Ok e
           | [] => Raised (Py.s "list index out of range")
           end;
         results ← Chroma.query c query_embedding top_k;
         scored_rows results
     end)
    (λ _, []).

(** A lowercase search term occurs in the chunk. *)
Definition lowercase_hit (terms : list Py.str) (r : Chroma.row) : bool :=
  existsb (λ t, Py.contains (Py.lower (Chroma.row_document r)) (Py.lower t)
                && Py.eqb (Py.lower t) t) terms.

(** Some search term occurs in the chunk. *)
Definition any_hit (terms : list Py.str) (r : Chroma.row) : bool :=
  existsb (λ t, Py.contains (Py.lower (Chroma.row_document r)) (Py.lower t))
          terms.

(** The match built from a stored chunk, with the given score. *)
Definition scored (sc : Q) (r : Chroma.row) : Doc :=
  {| doc_content := Chroma.row_document r;
     doc_metadata := Chroma.row_metadata r;
     doc_score := sc |}.

(** The documents whose score reaches the threshold. *)
Definition keep (score_threshold : Q) (docs : list Doc) : list Doc :=
  filter (λ d, Is_true (Qle_bool score_threshold (doc_score d))) docs.

End VectorService.

(** ** [ChatService] *)

Module ChatService.

Inductive query_type := Summary | Detail | Default.

Definition summary_keywords : list Py.str :=
  map Py.s
    ["summarize"; "summary"; "overview"; "brief"; "outline"; "synopsis";
     "main points"; "key points"; "highlights"; "quick overview";
     "give me a summary"; "what are the main"; "overall picture"]%string.

Definition detail_keywords : list Py.str :=
  map Py.s
    ["details"; "detailed"; "full info"; "complete section"; "comprehensive";
     "in depth"; "thorough"; "complete details"; "full description";
     "tell me everything"; "all information"; "complete picture"]%string.

Definition _determine_query_type (query : Py.str) : query_type :=
  let query_lower := Py.lower query in
  if Py.any_in summary_keywords query_lower then Summary
  else if Py.any_in detail_keywords query_lower then Detail
  else Default.

Definition name_indicators : list Py.str :=
  map Py.s
    ["who is"; "who are"; "what is"; "role of"; "position of";
     "lead"; "manager"; "developer"; "cto"; "qa"; "tester";
     "head of"; "responsible for"; "in charge of"]%string.

Definition known_names : list Py.str :=
  map Py.s
    ["ramesh"; "iyer"; "meera"; "nair"; "priya"; "deshmukh";
     "anjali"; "mukherjee"; "vishal"; "menon"; "devika"; "sharma";
     "arjun"; "mehta"; "kavya"; "rathi"; "neeraj"; "kapoor";
     "ayesha"; "khan"]%string.

Definition _is_name_query (query : Py.str) : bool :=
  let query_lower := Py.lower query in
  let has_proper_names := Re.search Re.full_name query in
  let has_name_indicators := Py.any_in name_indicators query_lower in
  let has_known_names := Py.any_in known_names query_lower in
  has_proper_names || has_name_indicators || has_known_names.

Definition visual_indicators : list Py.str :=
  map Py.s
    ["figure"; "diagram"; "image"; "picture"; "chart"; "graph";
     "illustration"; "visual"; "show"; "display"; "screenshot";
     "drawing"; "sketch"; "flowchart"; "architecture"; "design";
     "what does"; "how does"; "show me"; "visualize"; "layout"]%string.

Definition _is_visual_query (query : Py.str) : bool :=
  Py.any_in visual_indicators (Py.lower query).

(** [doc["metadata"].get("source", "Unknown")], as it prints. *)
Definition source_of (doc : Doc) : Py.str :=
  match doc_metadata doc !! "source"%string with
  | Some (SStr v) => v
  | Some (SInt v) => Py.s (pretty v)
  | Some (SBool true) => Py.s "True"
  | Some (SBool false) => Py.s "False"
  | None => Py.s "Unknown"
  end.

(** [content[:800] + "..." if len(content) > 800 else content] *)
Definition summary_content (content : Py.str) : Py.str :=
  if 800 <? length content then take 800 content ++ Py.s "..." else content.

(** One entry of the summary context: the header line and the body. *)
Definition summary_part (i : nat) (doc : Doc) : Py.str * Py.str :=
  (Py.s "[Source " ++ Py.s (pretty (i + 1)) ++ Py.s ": " ++ source_of doc
     ++ Py.s "]",
   summary_content (doc_content doc)).

Definition render_part (part : Py.str * Py.str) : Py.str :=
  part.1 ++ Py.newline ++ part.2.

(** [_extract_sources]: the distinct sources, as a set. *)
Definition _extract_sources (relevant_docs : list Doc) : list Py.str :=
  elements (list_to_set (map source_of relevant_docs) : gset Py.str).

(** The loop of [_calculate_confidence] over [enumerate(scores[:3])]; the
    state is [(weighted_score, total_weight)]. *)
Definition confidence_loop (scores : list Q) : Q * Q :=
  fold_left
    (λ (acc : Q * Q) (entry : nat * Q),
       let weight := (1 / of_nat (entry.1 + 1))%Q in
       ((acc.1 + entry.2 * weight)%Q, (acc.2 + weight)%Q))
    (imap (λ i score, (i, score)) (take 3 scores))
    (0%Q, 0%Q).

Definition _calculate_confidence (scores : list Q) (has_context : bool) : Q :=
  if negb has_context || bool_decide (scores = []) then 0%Q
  else
    let '(weighted_score, total_weight) := confidence_loop scores in
    let confidence :=
      if negb (Qle_bool total_weight 0)
      then (weighted_score / total_weight)%Q else 0%Q in
    Qmin confidence 1.

(** The search parameter chosen from the query type. *)
Definition top_k_of (qt : query_type) : Z :=
  match qt with
  | Summary => 8
  | Detail => 20
  | Default => 15
  end.

(** The retrieval step of [process_query]: the similarity search and, for a
    name query, the merge with the text search. *)
Definition retrieve (svc : VectorService.t) (query : Py.str)
    : list Doc * list Q :=
  let top_k := top_k_of (_determine_query_type query) in
  let '(relevant_docs, scores) :=
    VectorService.similarity_search svc query top_k (1 # 100) in
  if _is_name_query query then
    let text_search_docs := VectorService.text_search_fallback svc query in
    match text_search_docs with
    | _ :: _ =>
        (text_search_docs ++ take 10 relevant_docs,
         replicate (length text_search_docs) (9 # 10) ++ take 10 scores)
    | [] => (relevant_docs, scores)
    end
  else (relevant_docs, scores).

(** The weighted average as the specification words it: the first three
    scores, the score of rank [i] weighted by [1/(i+1)]. *)
Definition weighted_average_top3 (scores : list Q) : Q :=
  let weighted := imap (λ i score, (score, (1 / of_nat (i + 1))%Q)) (take 3 scores) in
  (foldr Qplus 0%Q (map (λ sw : Q * Q, (sw.1 * sw.2)%Q) weighted)
   / foldr Qplus 0%Q (map snd weighted))%Q.

Section Generation.

(** [f"{score:.2f}"], the float formatting of the language. *)
Variable format_2f : Q → Py.str.

(** [_generate_response]: the prompt sent to the generative model and its
    answer.  The method catches every exception of the call itself and
    always returns a string. *)
Variable _generate_response :
  Py.str → Py.str → bool → Py.str → query_type → bool → Py.str.

Definition scored_part (i : nat) (doc : Doc) : Py.str * Py.str :=
  (Py.s "[Source " ++ Py.s (pretty (i + 1)) ++ Py.s ": " ++ source_of doc
     ++ Py.s " (relevance: " ++ format_2f (doc_score doc) ++ Py.s ")]",
   doc_content doc).

(** The entries of the context, before they are joined. *)
Definition context_parts (relevant_docs : list Doc) (qt : query_type)
    : list (Py.str * Py.str) :=
  match qt with
  | Summary => imap summary_part (take 8 relevant_docs)
  | Detail => imap scored_part (take 8 relevant_docs)
  | Default => imap scored_part (take 5 relevant_docs)
  end.

Definition _build_context (relevant_docs : list Doc) (qt : query_type)
    : Py.str :=
  match relevant_docs with
  | [] => []
  | _ =>
      Py.join (Py.newline ++ Py.newline)
              (map render_part (context_parts relevant_docs qt))
  end.

Definition process_query_try
    (svc : VectorService.t) (chat_sessions : History.sessions)
    (query : Py.str) (session_id : string) (now1 now2 : nat)
    : outcome (ChatResponse * History.sessions) :=
  let conversation_context :=
    History._get_conversation_context chat_sessions session_id query in
  let query_type := _determine_query_type query in
  let '(relevant_docs, scores) := retrieve svc query in
  let context := _build_context relevant_docs query_type in
  let has_context := 0 <? length relevant_docs in
  let visual_query := _is_visual_query query in
  let response_text :=
    _generate_response query context has_context conversation_context
                       query_type visual_query in
  let sources := _extract_sources relevant_docs in
  let confidence := _calculate_confidence scores has_context in
  let response :=
    {| response := response_text; resp_sources := sources;
       confidence := confidence; has_context := has_context |} in
  mret (response,
        History._update_chat_history chat_sessions session_id query
          response_text sources now1 now2).

Definition error_response (e : Py.str) : ChatResponse :=
  {| response :=
       Py.s "I apologize, but I encountered an error while processing your question: "
         ++ e;
     resp_sources := []; confidence := 0%Q; has_context := false |}.

Definition process_query
    (svc : VectorService.t) (chat_sessions : History.sessions)
    (query : Py.str) (session_id : string) (now1 now2 : nat)
    : ChatResponse * History.sessions :=
  handle (process_query_try svc chat_sessions query session_id now1 now2)
         (λ e, (error_response e, chat_sessions)).

End Generation.

End ChatService.

(** ** The endpoints of [backend/main.py] that call the two services *)

Module Api.

(** The three services created at start-up, as far as the endpoints below
    read or write them. *)
Record app := {
  vector_service : VectorService.t;
  processed_documents : gmap Py.str DocumentInfo;
  chat_sessions : History.sessions
}.

(** The answer of an endpoint: the returned body, or the [HTTPException]
    that leaves it. *)
Inductive http (A : Type) :=
  | Returned (body : A)
  | HTTPException (status_code : nat) (detail : Py.str).
Arguments Returned {A} body.
Arguments HTTPException {A} status_code detail.

(** [DocumentService.get_processed_documents] *)
Definition get_processed_documents (st : app) : list DocumentInfo :=
  (map_to_list (processed_documents st)).*2.

(** [GET /health]: the status of the store and its count. *)
Definition health_check (st : app) : Py.str * nat :=
  match VectorService.get_collection_info (vector_service st) with
  | VectorService.NotInitialized => (Py.s "not_initialized", 0)
  | VectorService.Active n => (Py.s "active", n)
  end.

(** [DELETE /documents] *)
Definition clear_documents (st : app) : http (Py.str * Py.str) * app :=
  let '(vs, (vector_success, vector_msg)) :=
    VectorService.clear_collection (vector_service st) in
  (Returned (Py.s "All documents and chat history cleared", vector_msg),
   {| vector_service := vs;
      processed_documents := ∅;
      chat_sessions := History.clear_all_sessions (chat_sessions st) |}).

(** [DELETE /chat-history/{session_id}] *)
Definition clear_chat_history (st : app) (sid : string)
    : http Py.str * app :=
  (Returned (Py.s "Chat history cleared for session "
               ++ String.list_ascii_of_string sid),
   {| vector_service := vector_service st;
      processed_documents := processed_documents st;
      chat_sessions := History.clear_chat_history (chat_sessions st) sid |}).


Section Chat.

Variable format_2f : Q → Py.str.
Variable _generate_response :
  Py.str → Py.str → bool → Py.str → ChatService.query_type → bool → Py.str.

(** [str(e)] of an [HTTPException] with the given status and detail. *)
Variable str_of_http_exception : nat → Py.str → Py.str.

(** The [try] block of [POST /chat]. *)
Definition chat_try (st : app) (message : Py.str) (sid : string)
    (now1 now2 : nat) : outcome (ChatResponse * app) :=
  match Py.strip message with
  | [] =>
      Raised (str_of_http_exception 400 (Py.s "Message cannot be empty"))
  | _ =>
      let '(resp, sessions) :=
        ChatService.process_query format_2f _generate_response
          (vector_service st) (chat_sessions st) message sid now1 now2 in
      mret (resp,
            {| vector_service := vector_service st;
               processed_documents := processed_documents st;
               chat_sessions := sessions |})
  end.

(** [POST /chat]: every exception of the block, the one raised for a blank
    message included, is answered with status 500. *)
Definition chat (st : app) (message : Py.str) (sid : string)
    (now1 now2 : nat) : http ChatResponse * app :=
  match chat_try st message sid now1 now2 with
  | Ok (resp, st') => (Returned resp, st')
  | Raised e => (HTTPException 500 (Py.s "Chat processing failed: " ++ e), st)
  end.

End Chat.

End Api.

(** ** Sample data for the examples *)

Module Sample.

Definition chunk (i : nat) (doc_id source text : string) : Chroma.row :=
  {| Chroma.row_id := Py.s doc_id ++ Py.s "_chunk_" ++ Py.s (pretty i);
     Chroma.row_document := Py.s text;
     Chroma.row_metadata :=
       {[ "source"%string := SStr (Py.s source);
          "doc_id"%string := SStr (Py.s doc_id);
          "chunk_index"%string := SInt (Z.of_nat i) ]};
     Chroma.row_embedding := handle (VectorService.embed (Py.s text)) (λ _, []) |}.

Definition team : VectorService.t :=
  {| VectorService.collection :=
       Some [chunk 0 "d1" "team.txt" "The backend uses Node.js.";
             chunk 1 "d1" "team.txt" "Ramesh Iyer is the CTO."] |}.

Definition empty : VectorService.t := {| VectorService.collection := Some [] |}.

Definition staff : VectorService.t :=
  {| VectorService.collection :=
       Some [chunk 0 "d2" "staff.txt" "Ramesh Iyer is the CTO.";
             chunk 1 "d2" "staff.txt" "The QA lead is Anjali Mukherjee.";
             chunk 2 "d2" "staff.txt" "Ramesh approved the final release.";
             chunk 3 "d2" "staff.txt" "Meera Nair reports to Ramesh."] |}.

Definition release_note : Document :=
  {| page_content := Py.s "Ramesh approved the final release in April 2024.";
     metadata_of := {[ "source"%string := SStr (Py.s "notes.md") ]} |}.

Definition no_answer : Py.str → Py.str → bool → Py.str →
                       ChatService.query_type → bool → Py.str :=
  λ _ _ _ _ _ _, Py.s "No answer.".

Definition message (r c : string) : ChatMessage :=
  {| role := Py.s r; content := Py.s c; timestamp := 0; sources := [] |}.

Definition one_exchange : History.sessions :=
  {[ "s1"%string := [message "user" "Who is the CTO?";
                     message "assistant" "Ramesh Iyer is the CTO."] ]}.

(** A session that already holds 20 messages, numbered 0 to 19. *)
Definition twenty_messages : list ChatMessage :=
  map (λ i, message "user" (String.append "message " (pretty i))) (seq 0 20).

Definition full_session : History.sessions :=
  {[ "s1"%string := twenty_messages ]}.

Definition release_plan : Document :=
  {| page_content := Py.s "The UAT starts in May.";
     metadata_of := {[ "source"%string := SStr (Py.s "notes.md");
                       "chunk_id"%string := SInt 1 ]} |}.

End Sample.

(** * Properties *)

(** ** Lists and strings *)

Lemma last_n_length {A} (n : nat) (l : list A) :
  length (Py.last_n n l) = Nat.min n (length l).
Proof. unfold Py.last_n. rewrite length_drop. lia. Qed.

Lemma last_n_suffix {A} (n : nat) (l : list A) : Py.last_n n l `suffix_of` l.
Proof. exists (take (length l - n) l). unfold Py.last_n. by rewrite take_drop. Qed.

Lemma last_n_nonempty {A} (n : nat) (l : list A) :
  0 < n → l ≠ [] → Py.last_n n l ≠ [].
Proof.
  intros Hn Hl Heq. apply (f_equal length) in Heq.
  rewrite last_n_length in Heq. destruct l; [done | simpl in Heq; lia].
Qed.

Lemma join_nonempty (sep : Py.str) (parts : list Py.str) :
  parts ≠ [] → Forall (λ p, p ≠ []) parts → Py.join sep parts ≠ [].
Proof.
  destruct parts as [|p rest]; [done |]. intros _ Hall.
  apply Forall_cons in Hall as [Hp _].
  destruct rest; simpl; [done |]. destruct p; [done | discriminate].
Qed.

(** [needle in hay] holds only when [needle] occurs in [hay]. *)
Lemma startswith_prefix (x p : Py.str) :
  Py.startswith x p = true → ∃ rest, x = p ++ rest.
Proof.
  revert x. induction p as [|c p IH]; intros x; [by exists x |].
  destruct x as [|d x]; simpl; [done |].
  intros [Hc Hp]%andb_true_iff. apply Ascii.eqb_eq in Hc as ->.
  destruct (IH x Hp) as [rest ->]. by exists rest.
Qed.

Lemma contains_occurs (hay needle : Py.str) :
  Py.contains hay needle = true → ∃ before after, hay = before ++ needle ++ after.
Proof.
  induction hay as [|c hay IH]; cbn [Py.contains].
  - rewrite orb_false_r. intros [rest ->]%startswith_prefix. by exists [], rest.
  - intros [Hs | Hc]%orb_true_iff.
    + apply startswith_prefix in Hs as [rest ->]. by exists [], rest.
    + destruct (IH Hc) as (before & after & ->). by exists (c :: before), after.
Qed.

Lemma any_in_occurs (keys : list Py.str) (x : Py.str) :
  Py.any_in keys x = true →
  ∃ key before after, key ∈ keys ∧ x = before ++ key ++ after.
Proof.
  unfold Py.any_in. intros (key & Hkey & Hc)%existsb_exists.
  apply contains_occurs in Hc as (before & after & ->).
  exists key, before, after. split; [by apply list_elem_of_In | done].
Qed.

(** ** Chat history *)

Section HistoryFacts.

Import History.

Lemma context_line_nonempty (msg : ChatMessage) : context_line msg ≠ [].
Proof.
  unfold context_line. intros Heq. apply (f_equal length) in Heq.
  rewrite !length_app in Heq. simpl in Heq. lia.
Qed.

Lemma trimmed_length (l : list ChatMessage) : length (trimmed l) ≤ 20.
Proof.
  unfold trimmed. destruct (20 <? length l) eqn:E.
  - rewrite last_n_length. lia.
  - apply Nat.ltb_ge in E. lia.
Qed.

Lemma trimmed_exact (l : list ChatMessage) :
  trimmed l `suffix_of` l ∧ length (trimmed l) = Nat.min 20 (length l).
Proof.
  unfold trimmed. destruct (20 <? length l) eqn:E.
  - split; [apply last_n_suffix | apply last_n_length].
  - apply Nat.ltb_ge in E. split; [done | lia].
Qed.

Lemma update_lookup (cs : sessions) sid q r srcs t1 t2 :
  _update_chat_history cs sid q r srcs t1 t2 !! sid
  = Some (trimmed
            (get_chat_history cs sid
               ++ [ {| role := Py.s "user"; content := q;
                       timestamp := t1; sources := [] |};
                    {| role := Py.s "assistant"; content := r;
                       timestamp := t2; sources := srcs |} ])).
Proof.
  unfold _update_chat_history, get_chat_history, trimmed.
  destruct (cs !! sid) as [h|] eqn:E; simpl.
  - rewrite E. simpl. case_match; by rewrite ?lookup_insert_eq.
  - rewrite lookup_insert_eq. simpl. by rewrite lookup_insert_eq.
Qed.

Lemma update_lookup_ne (cs : sessions) sid sid' q r srcs t1 t2 :
  sid ≠ sid' →
  _update_chat_history cs sid q r srcs t1 t2 !! sid' = cs !! sid'.
Proof.
  intros Hne. unfold _update_chat_history.
  destruct (cs !! sid) as [h|] eqn:E; simpl.
  - case_match; by rewrite !lookup_insert_ne.
  - case_match; by rewrite !lookup_insert_ne.
Qed.

Lemma clear_chat_history_lookup (cs : sessions) sid sid' h :
  clear_chat_history cs sid !! sid' = Some h → cs !! sid' = Some h.
Proof.
  unfold clear_chat_history. destruct (cs !! sid) eqn:E; [|done].
  intros H. apply lookup_delete_Some in H. tauto.
Qed.

Lemma bounded_empty : bounded ∅.
Proof. intros sid h H. by rewrite lookup_empty in H. Qed.

End HistoryFacts.

(** C10. After an update of the chat history the updated session holds the
    last 20 messages of the extended history when that is longer than 20,
    and the extended history otherwise: what is stored is a suffix of the
    extended history and has 20 messages, or all of them when there are
    fewer.  Each of the operations that write [chat_sessions] (update,
    clearing one session, clearing all) keeps every stored history at 20
    messages or fewer. *)
Theorem history_capped_at_20 (m : History.mutation) (cs : History.sessions) :
  History.bounded cs →
  History.bounded (History.apply_mutation m cs) ∧
  ∀ sid q r srcs t1 t2,
    m = History.Update sid q r srcs t1 t2 →
    let extended :=
      History.get_chat_history cs sid
        ++ [ {| role := Py.s "user"; content := q;
                timestamp := t1; sources := [] |};
             {| role := Py.s "assistant"; content := r;
                timestamp := t2; sources := srcs |} ] in
    let stored := History.get_chat_history (History.apply_mutation m cs) sid in
    length stored ≤ 20 ∧
    stored = (if 20 <? length extended then Py.last_n 20 extended else extended) ∧
    stored `suffix_of` extended ∧
    length stored = Nat.min 20 (length extended).
Proof.
  intros Hb. split.
  - destruct m as [sid q r srcs t1 t2 | sid | ]; simpl.
    + intros sid' h Hl. destruct (decide (sid = sid')) as [<-|Hne].
      * rewrite update_lookup in Hl. injection Hl as <-. apply trimmed_length.
      * rewrite update_lookup_ne in Hl by done. by eapply Hb.
    + intros sid' h Hl. apply clear_chat_history_lookup in Hl. by eapply Hb.
    + apply bounded_empty.
  - intros sid q r srcs t1 t2 -> extended stored.
    assert (Hs : stored = History.trimmed extended).
    { subst stored. simpl. unfold History.get_chat_history at 1.
      by rewrite update_lookup. }
    rewrite Hs. split; [apply trimmed_length |]. split; [done |].
    apply trimmed_exact.
Qed.

Lemma history_capped_at_20_witness :
  let m := History.Update "s1" (Py.s "And the backend?") (Py.s "Node.js.") [] 1 2 in
  let extended :=
    Sample.twenty_messages
      ++ [ {| role := Py.s "user"; content := Py.s "And the backend?";
              timestamp := 1; sources := [] |};
           {| role := Py.s "assistant"; content := Py.s "Node.js.";
              timestamp := 2; sources := [] |} ] in
  let stored :=
    History.get_chat_history (History.apply_mutation m Sample.full_session) "s1" in
  History.bounded Sample.full_session ∧
  History.bounded (History.apply_mutation m Sample.full_session) ∧
  length extended = 22 ∧
  stored `suffix_of` extended ∧
  length stored = 20.
Proof.
  intros m extended stored.
  assert (Hb : History.bounded Sample.full_session).
  { intros sid h Hl. unfold Sample.full_session in Hl.
    apply lookup_singleton_Some in Hl as [_ <-]. vm_compute. lia. }
  split; [exact Hb |].
  destruct (history_capped_at_20 m Sample.full_session Hb) as [Hafter Hupdate].
  split; [exact Hafter |]. split; [reflexivity |].
  destruct (Hupdate "s1"%string (Py.s "And the backend?") (Py.s "Node.js.")
              [] 1 2 eq_refl) as (_ & _ & Hsuffix & Hlength).
  split; [exact Hsuffix | exact Hlength].
Defined.

(** C7. The conversation context is non-empty only when the query contains a
    backward-reference indicator, that is, when one of the 22 indicators
    occurs as a substring of the lowercased query, and the session has a
    non-empty stored history; it is then the lines, joined by newlines, of
    the last 6 messages (all of them when there are fewer), each line made of
    the titled role and the first 200 characters of the message content. *)
Theorem conversation_context_assembled
    (cs : History.sessions) (sid : string) (query : Py.str) :
  History._get_conversation_context cs sid query ≠ [] →
  History._query_references_previous_context query = true ∧
  (∃ indicator before after,
     indicator
     ∈ map Py.s
         ["who did you mention"; "what did you say"; "tell me more";
          "more about"; "what about"; "how about"; "and what"; "also";
          "additionally"; "that person"; "they"; "them"; "he"; "she"; "it";
          "this"; "previous"; "before"; "earlier"; "above"; "that";
          "those"]%string ∧
     Py.lower query = before ++ indicator ++ after) ∧
  ∃ history,
    cs !! sid = Some history ∧ history ≠ [] ∧
    let recent := Py.last_n 6 history in
    recent `suffix_of` history ∧ length recent ≤ 6 ∧
    length recent = Nat.min 6 (length history) ∧
    History._get_conversation_context cs sid query
    = Py.join Py.newline
        (map (λ msg, Py.title (role msg) ++ Py.s ": " ++ take 200 (content msg))
             recent) ∧
    Forall (λ msg, length (take 200 (content msg)) ≤ 200) recent.
Proof.
  unfold History._get_conversation_context.
  destruct (cs !! sid) as [[|m h]|] eqn:E; [done | | done].
  destruct (History._query_references_previous_context query) eqn:Eref;
    [| done].
  simpl negb. cbv iota. intros Hne. split; [done |].
  split.
  { unfold History._query_references_previous_context in Eref.
    apply any_in_occurs in Eref as (key & before & after & Hkey & Heq).
    by exists key, before, after. }
  exists (m :: h). split; [done |]. split; [done |].
  cbv zeta. set (recent := Py.last_n 6 (m :: h)) in *.
  split; [apply last_n_suffix |].
  split; [subst recent; rewrite last_n_length; lia |].
  split; [subst recent; apply last_n_length |].
  split.
  - unfold History.context_line. by destruct (map _ recent).
  - apply Forall_forall. intros msg _. rewrite length_take. lia.
Qed.

Lemma conversation_context_assembled_witness :
  History._get_conversation_context Sample.one_exchange "s1"
    (Py.s "Tell me more about that person") ≠ [] ∧
  History._query_references_previous_context
    (Py.s "Tell me more about that person") = true ∧
  ∃ indicator before after,
    indicator
    ∈ map Py.s
        ["who did you mention"; "what did you say"; "tell me more";
         "more about"; "what about"; "how about"; "and what"; "also";
         "additionally"; "that person"; "they"; "them"; "he"; "she"; "it";
         "this"; "previous"; "before"; "earlier"; "above"; "that";
         "those"]%string ∧
    Py.lower (Py.s "Tell me more about that person")
    = before ++ indicator ++ after.
Proof.
  assert (Hne : History._get_conversation_context Sample.one_exchange "s1"
                  (Py.s "Tell me more about that person") ≠ []).
  { vm_compute. discriminate. }
  split; [exact Hne |].
  destruct (conversation_context_assembled _ _ _ Hne) as (Href & Hocc & _).
  split; [exact Href | exact Hocc].
Defined.

(** The converse: with an indicator in the query and stored messages the
    context is not empty. *)
Lemma conversation_context_nonempty
    (cs : History.sessions) (sid : string) (query : Py.str) history :
  cs !! sid = Some history → history ≠ [] →
  History._query_references_previous_context query = true →
  History._get_conversation_context cs sid query ≠ [].
Proof.
  intros E Hh Hq. unfold History._get_conversation_context. rewrite E, Hq.
  destruct history as [|m h]; [done |]. simpl negb. cbv iota.
  assert (Hparts : map History.context_line (Py.last_n 6 (m :: h)) ≠ []).
  { intros Heq. apply map_eq_nil in Heq. by eapply last_n_nonempty in Heq; [| lia |]. }
  pose proof (join_nonempty Py.newline _ Hparts) as Hj.
  destruct (map History.context_line (Py.last_n 6 (m :: h))) eqn:Em; [done |].
  apply Hj. apply Forall_forall. intros p Hp. rewrite <- Em in Hp.
  apply list_elem_of_fmap in Hp as (msg & -> & _). apply context_line_nonempty.
Qed.

(** ** Exceptions and rationals *)

Lemma of_nat_nonzero (n : nat) : 1 ≤ n → Qeq_bool (of_nat n) 0 = false.
Proof.
  intros Hn. apply not_true_is_false. intros Heq.
  apply Qeq_bool_iff in Heq. unfold of_nat, Qeq, inject_Z in Heq.
  simpl in Heq. lia.
Qed.

Lemma truediv_of_nat (a : Q) (n : nat) :
  1 ≤ n → truediv a (of_nat n) = Ok (a / of_nat n)%Q.
Proof. intros Hn. unfold truediv. by rewrite of_nat_nonzero. Qed.

Lemma mapM_total {A B} (f : A → outcome B) (l : list A) :
  (∀ x, ∃ y, f x = Ok y) →
  ∃ l', mapM f l = Ok l' ∧ length l' = length l.
Proof.
  intros Hf. induction l as [|x l IH]; simpl.
  - by exists [].
  - destruct (Hf x) as [y Hy]. destruct IH as (l' & Hl' & Hlen).
    exists (y :: l'). rewrite Hy. simpl. rewrite Hl'. simpl.
    split; [done | by rewrite Hlen].
Qed.

(** ** The feature vectorizer *)

Section VectorizerFacts.

Import VectorService.

Lemma or_1_positive (n : nat) : 1 ≤ or_1 n.
Proof. unfold or_1. destruct (n =? 0) eqn:E; [lia |]. apply Nat.eqb_neq in E. lia. Qed.

Lemma padded_length (e : list Q) :
  length (if length e <? target_size
          then e ++ replicate (target_size - length e) 0%Q
          else take target_size e)
  = target_size.
Proof.
  destruct (length e <? target_size) eqn:E.
  - apply Nat.ltb_lt in E. rewrite length_app, length_replicate. lia.
  - apply Nat.ltb_ge in E. rewrite length_take. lia.
Qed.

Lemma embed_total (text : Py.str) :
  ∃ v, embed text = Ok v ∧ length v = target_size.
Proof.
  unfold embed.
  set (words := Re.findall Re.word (Py.lower text)).
  destruct (mapM_total
              (λ kc : Py.str * nat,
                 truediv (of_nat kc.2) (of_nat (total_words words)))
              (count_into crm_keywords words)) as (kf & -> & _).
  { intros kc. eexists. apply truediv_of_nat, or_1_positive. }
  cbn [mbind outcome_bind].
  destruct (mapM_total
              (λ kc : Py.str * nat,
                 truediv (of_nat kc.2) (of_nat (total_bigrams (bigrams_of words))))
              (count_into important_bigrams (bigrams_of words)))
    as (bf & -> & _).
  { intros kc. eexists. apply truediv_of_nat. unfold total_bigrams. lia. }
  cbn [mbind outcome_bind].
  destruct (mapM_total
              (λ char,
                 truediv (of_nat (default 0 (count_chars (Py.lower text) !! char)))
                         (of_nat (total_chars (count_chars (Py.lower text)))))
              (Py.s "aeioutrnslc")) as (cf & -> & _).
  { intros ch. eexists. apply truediv_of_nat, or_1_positive. }
  cbn [mbind outcome_bind mret outcome_ret].
  eexists. split; [reflexivity |]. apply padded_length.
Qed.

End VectorizerFacts.

(** C8. On the empty text the vectorizer returns 384 features that are all
    zero.  The three variable denominators (number of words, of bigrams, of
    alphabetic characters) are replaced by 1 when they are zero, hence are
    never zero, and on every text the vectorizer returns a vector of 384
    features without raising. *)
Theorem vectorizer_total_and_guarded :
  (∃ v, VectorService.embed [] = Ok v ∧ length v = 384 ∧
        Forall (λ x, (x == 0)%Q) v) ∧
  (VectorService.total_words [] = 1 ∧ VectorService.total_bigrams [] = 1 ∧
   VectorService.total_chars ∅ = 1) ∧
  (∀ text : Py.str,
     let words := Re.findall Re.word (Py.lower text) in
     1 ≤ VectorService.total_words words ∧
     1 ≤ VectorService.total_bigrams (VectorService.bigrams_of words) ∧
     1 ≤ VectorService.total_chars (VectorService.count_chars (Py.lower text))) ∧
  (∀ text : Py.str,
     ∃ v, VectorService.embed text = Ok v ∧ length v = 384) ∧
  (∀ texts : list Py.str,
     ∃ vs, VectorService._generate_improved_embeddings texts = Ok vs ∧
           length vs = length texts).
Proof.
  split; [| split; [| split; [| split]]].
  - exists ((0 # 2000) :: (0 # 200) :: replicate 382 0)%Q.
    split; [vm_compute; reflexivity |]. split; [reflexivity |].
    apply Forall_cons_2; [reflexivity |].
    apply Forall_cons_2; [reflexivity |].
    apply Forall_replicate. reflexivity.
  - by vm_compute.
  - intros text words. split; [apply or_1_positive |].
    split; [unfold VectorService.total_bigrams; lia | apply or_1_positive].
  - apply embed_total.
  - intros texts. apply mapM_total. intros text.
    destruct (embed_total text) as (v & Hv & _). by exists v.
Qed.

(** ** Similarity search *)

Section SearchFacts.

Import VectorService.

Lemma keep_cons_true thr d l :
  Qle_bool thr (doc_score d) = true → keep thr (d :: l) = d :: keep thr l.
Proof.
  intros H. unfold keep. rewrite filter_cons.
  case_decide as Hd; [done |]. simpl in Hd. by rewrite H in Hd.
Qed.

Lemma keep_cons_false thr d l :
  Qle_bool thr (doc_score d) = false → keep thr (d :: l) = keep thr l.
Proof.
  intros H. unfold keep. rewrite filter_cons.
  case_decide as Hd; [| done]. simpl in Hd. by rewrite H in Hd.
Qed.

Lemma process_results_spec thr rows docs scores :
  process_results thr rows docs scores
  = (cands ← scored_rows rows;
     mret (docs ++ keep thr cands, scores ++ map doc_score (keep thr cands))).
Proof.
  revert docs scores.
  induction rows as [|[[doc md] dist] rows IH]; intros docs scores.
  - simpl. by rewrite !app_nil_r.
  - unfold scored_rows. simpl.
    destruct (truediv 1 (1 + dist)) as [sc|e]; simpl; [| done].
    fold (scored_rows rows).
    destruct (Qle_bool thr sc) eqn:E; rewrite IH;
      destruct (scored_rows rows) as [cands|e]; simpl; try done.
    + rewrite keep_cons_true by done. simpl. by rewrite <- !app_assoc.
    + by rewrite keep_cons_false by done.
Qed.

(** The search returns the candidates that reach the threshold, and their
    scores. *)
Lemma similarity_search_spec svc query top_k thr :
  similarity_search svc query top_k thr
  = (keep thr (candidates svc query top_k),
     map doc_score (keep thr (candidates svc query top_k))).
Proof.
  unfold similarity_search, similarity_search_try, candidates.
  destruct (collection svc) as [c|]; [| done].
  destruct (_generate_improved_embeddings [query]) as [[|e es]|err]; simpl;
    try done.
  destruct (Chroma.query c e top_k) as [rows|err]; simpl; [| done].
  rewrite process_results_spec.
  by destruct (scored_rows rows).
Qed.

Lemma keep_monotone t1 t2 docs :
  (t1 <= t2)%Q → keep t2 docs `sublist_of` keep t1 docs.
Proof.
  intros Hle. induction docs as [|d docs IH]; [done |].
  destruct (Qle_bool t2 (doc_score d)) eqn:E2.
  - assert (E1 : Qle_bool t1 (doc_score d) = true).
    { apply Qle_bool_iff. apply Qle_bool_iff in E2. by eapply Qle_trans. }
    rewrite !keep_cons_true by done. by apply sublist_skip.
  - rewrite (keep_cons_false t2) by done.
    destruct (Qle_bool t1 (doc_score d)) eqn:E1.
    + rewrite keep_cons_true by done. by apply sublist_cons.
    + by rewrite keep_cons_false by done.
Qed.

Lemma candidates_empty_store query top_k :
  candidates {| collection := Some [] |} query top_k = [].
Proof.
  unfold candidates, _generate_improved_embeddings. simpl.
  destruct (embed query) as [v|e]; simpl; [| done].
  unfold Chroma.query. destruct (top_k <=? 0)%Z; simpl; [done |].
  by rewrite take_nil.
Qed.

End SearchFacts.

(** C4. For a fixed service state, query and [top_k] there is one list of
    candidates (the nearest chunks with their scores) such that, at every
    threshold, the search returns exactly the candidates whose score is at
    least the threshold, in the same order, with their scores; hence the
    result at a higher threshold is a sublist of the result at a lower one
    and is not longer. *)
Theorem threshold_monotone
    (svc : VectorService.t) (query : Py.str) (top_k : Z) (t1 t2 : Q) :
  (t1 <= t2)%Q →
  (∀ t,
     VectorService.similarity_search svc query top_k t
     = (filter (λ d, Is_true (Qle_bool t (doc_score d)))
               (VectorService.candidates svc query top_k),
        map doc_score
            (filter (λ d, Is_true (Qle_bool t (doc_score d)))
                    (VectorService.candidates svc query top_k)))) ∧
  (VectorService.similarity_search svc query top_k t2).1
    `sublist_of` (VectorService.similarity_search svc query top_k t1).1 ∧
  length (VectorService.similarity_search svc query top_k t2).1
    ≤ length (VectorService.similarity_search svc query top_k t1).1 ∧
  length (VectorService.similarity_search svc query top_k t2).2
    ≤ length (VectorService.similarity_search svc query top_k t1).2.
Proof.
  intros Hle. split; [intros t; apply similarity_search_spec |].
  rewrite !similarity_search_spec. simpl.
  pose proof (keep_monotone t1 t2 (VectorService.candidates svc query top_k) Hle)
    as Hsub.
  split; [done |]. rewrite !length_map.
  split; by apply sublist_length.
Qed.

Lemma threshold_monotone_witness :
  ((1 # 100) <= (1 # 2))%Q ∧
  length (VectorService.similarity_search Sample.team
            (Py.s "Who is Ramesh Iyer?") 15 (1 # 2)).1
  ≤ length (VectorService.similarity_search Sample.team
              (Py.s "Who is Ramesh Iyer?") 15 (1 # 100)).1.
Proof.
  assert (Hle : ((1 # 100) <= (1 # 2))%Q) by (vm_compute; discriminate).
  split; [exact Hle |].
  exact (proj1 (proj2 (proj2
    (threshold_monotone Sample.team (Py.s "Who is Ramesh Iyer?") 15 _ _ Hle)))).
Defined.

(** ** Retrieval on an empty store *)

Section EmptyStore.

Import VectorService ChatService.

Lemma top_k_positive (qt : query_type) : (top_k_of qt <=? 0)%Z = false.
Proof. by destruct qt. Qed.

Lemma similarity_search_try_empty_store query top_k thr :
  (top_k <=? 0)%Z = false →
  similarity_search_try {| collection := Some [] |} query top_k thr = Ok ([], []).
Proof.
  intros Hk. unfold similarity_search_try, _generate_improved_embeddings. simpl.
  destruct (embed_total query) as (v & -> & _). simpl.
  unfold Chroma.query. rewrite Hk. simpl. by rewrite take_nil.
Qed.

Lemma retrieve_empty_store query :
  retrieve {| collection := Some [] |} query = ([], []).
Proof.
  unfold retrieve. rewrite similarity_search_spec, candidates_empty_store.
  simpl. by destruct (_is_name_query query).
Qed.

End EmptyStore.

(** C6. On a store without chunks the similarity search returns the pair of
    empty lists at every [top_k] and threshold, and with the parameters of
    [process_query] it does so without raising; the retrieval is empty, and
    [process_query] completes on its normal path with [has_context = false],
    confidence [0.0] and no sources. *)
Theorem empty_index_is_not_an_error
    (format_2f : Q → Py.str)
    (_generate_response :
       Py.str → Py.str → bool → Py.str → ChatService.query_type → bool → Py.str)
    (query : Py.str) (top_k : Z) (score_threshold : Q)
    (cs : History.sessions) (sid : string) (now1 now2 : nat) :
  let svc := {| VectorService.collection := Some [] |} in
  VectorService.similarity_search svc query top_k score_threshold = ([], []) ∧
  VectorService.similarity_search_try svc query
    (ChatService.top_k_of (ChatService._determine_query_type query)) (1 # 100)
  = Ok ([], []) ∧
  VectorService.text_search_fallback svc query = [] ∧
  ChatService.retrieve svc query = ([], []) ∧
  ∃ resp cs',
    ChatService.process_query_try format_2f _generate_response
      svc cs query sid now1 now2 = Ok (resp, cs') ∧
    ChatService.process_query format_2f _generate_response
      svc cs query sid now1 now2 = (resp, cs') ∧
    has_context resp = false ∧ confidence resp = 0%Q ∧ resp_sources resp = [] ∧
    response resp
    = _generate_response query [] false
        (History._get_conversation_context cs sid query)
        (ChatService._determine_query_type query)
        (ChatService._is_visual_query query).
Proof.
  intros svc. subst svc.
  split.
  { by rewrite similarity_search_spec, candidates_empty_store. }
  split.
  { apply similarity_search_try_empty_store, top_k_positive. }
  split; [done |].
  split; [apply retrieve_empty_store |].
  unfold ChatService.process_query, ChatService.process_query_try.
  rewrite retrieve_empty_store. simpl.
  eexists _, _. split; [reflexivity |]. split; [reflexivity |]. simpl.
  split; [done |]. split; [done |]. split; [| done].
  unfold ChatService._extract_sources. simpl. apply elements_empty.
Qed.

(** ** Clearing and deleting *)

Section StoreFacts.

Import VectorService.

Lemma filter_none {A} (P : A → Prop) `{∀ x, Decision (P x)} (l : list A) :
  (∀ x, x ∈ l → ¬ P x) → filter P l = [].
Proof.
  induction l as [|a l IH]; intros Hall; [done |].
  rewrite filter_cons_False.
  - apply IH. intros x Hx. apply Hall. by apply list_elem_of_further.
  - apply Hall. apply list_elem_of_here.
Qed.

Lemma delete_all_ids (c : Chroma.collection) :
  Chroma.delete c (map Chroma.row_id c) = [].
Proof.
  unfold Chroma.delete. apply filter_none.
  intros r Hr Hnot. apply Hnot.
  apply list_elem_of_fmap. by exists r.
Qed.

Lemma get_where_after_delete (c : Chroma.collection) (doc_id : Py.str) :
  Chroma.get_where_doc_id
    (Chroma.delete c (map Chroma.row_id (Chroma.get_where_doc_id c doc_id)))
    doc_id
  = [].
Proof.
  unfold Chroma.get_where_doc_id, Chroma.delete. apply filter_none.
  intros r Hr Hmd.
  apply list_elem_of_filter in Hr as [Hnot Hin]. apply Hnot.
  apply list_elem_of_fmap. exists r. split; [done |].
  apply list_elem_of_filter. done.
Qed.

Lemma delete_no_ids (c : Chroma.collection) : Chroma.delete c [] = c.
Proof.
  unfold Chroma.delete. induction c as [|r c IH]; [done |].
  rewrite filter_cons_True; [by rewrite IH | apply not_elem_of_nil].
Qed.

Lemma delete_document_absent (c : Chroma.collection) (doc_id : Py.str) :
  Chroma.get_where_doc_id c doc_id = [] →
  delete_document {| collection := Some c |} doc_id
  = ({| collection := Some c |},
     (true, Py.s "No chunks found for this document")).
Proof.
  intros Habsent. unfold delete_document. cbn [collection].
  by rewrite Habsent.
Qed.

Lemma delete_document_state (c : Chroma.collection) (doc_id : Py.str) :
  (delete_document {| collection := Some c |} doc_id).1
  = {| collection :=
         Some (Chroma.delete c
                 (map Chroma.row_id (Chroma.get_where_doc_id c doc_id))) |}
  ∧ (delete_document {| collection := Some c |} doc_id).2.1 = true.
Proof.
  unfold delete_document. cbn [collection].
  destruct (map Chroma.row_id (Chroma.get_where_doc_id c doc_id)) as [|i ids];
    cbn [fst snd]; [by rewrite delete_no_ids | done].
Qed.

End StoreFacts.

(** C9. On an initialised service, [clear_collection] succeeds and leaves a
    store whose count is zero, and a second [clear_collection] succeeds and
    changes nothing.  [delete_document] of a document id that no stored chunk
    carries succeeds and leaves the service as it was; after a
    [delete_document] of any id, a second one for the same id finds no
    chunk and changes nothing. *)
Theorem clear_and_delete_idempotent
    (c : Chroma.collection) (absent_id doc_id : Py.str) :
  Chroma.get_where_doc_id c absent_id = [] →
  let svc := {| VectorService.collection := Some c |} in
  let cleared := (VectorService.clear_collection svc).1 in
  let deleted := (VectorService.delete_document svc doc_id).1 in
  (VectorService.clear_collection svc).2.1 = true ∧
  VectorService.get_collection_info cleared = VectorService.Active 0 ∧
  VectorService.clear_collection cleared
  = (cleared, (true, Py.s "Collection was already empty")) ∧
  VectorService.delete_document svc absent_id
  = (svc, (true, Py.s "No chunks found for this document")) ∧
  (VectorService.delete_document svc doc_id).2.1 = true ∧
  VectorService.delete_document deleted doc_id
  = (deleted, (true, Py.s "No chunks found for this document")).
Proof.
  intros Habsent svc cleared deleted.
  assert (Hcleared : cleared = {| VectorService.collection := Some [] |}).
  { subst cleared svc. unfold VectorService.clear_collection.
    cbn [VectorService.collection].
    destruct (map Chroma.row_id c) as [|i ids] eqn:Eids; cbn [fst].
    - apply map_eq_nil in Eids. by rewrite Eids.
    - by rewrite <- Eids, delete_all_ids. }
  split.
  { subst svc. unfold VectorService.clear_collection. simpl.
    by destruct (map Chroma.row_id c). }
  split; [by rewrite Hcleared |].
  split; [by rewrite Hcleared |].
  split; [by apply delete_document_absent |].
  destruct (delete_document_state c doc_id) as [Hstate Hok].
  split; [done |].
  subst deleted svc. rewrite Hstate.
  apply delete_document_absent, get_where_after_delete.
Qed.

Lemma clear_and_delete_idempotent_witness :
  Chroma.get_where_doc_id
    (default [] (VectorService.collection Sample.team)) (Py.s "d2") = [] ∧
  VectorService.delete_document Sample.team (Py.s "d2")
  = (Sample.team, (true, Py.s "No chunks found for this document")).
Proof.
  assert (Habsent : Chroma.get_where_doc_id
            (default [] (VectorService.collection Sample.team)) (Py.s "d2") = [])
    by (vm_compute; reflexivity).
  split; [exact Habsent |].
  exact (proj1 (proj2 (proj2 (proj2
    (clear_and_delete_idempotent _ (Py.s "d2") (Py.s "d1") Habsent))))).
Defined.

(** ** Merging the text search into the retrieval *)

(** C1. For a name query whose text search finds matches, the retrieved
    list is the text-search matches followed by the first 10 results of the
    similarity search, and the score list is one [0.9] per text-search match
    followed by the first 10 similarity scores: every position below the
    number of matches holds a text-search match, and at most 10 results of
    the similarity search follow. *)
Theorem name_query_merge (svc : VectorService.t) (query : Py.str) :
  ChatService._is_name_query query = true →
  VectorService.text_search_fallback svc query ≠ [] →
  let keyword_matches := VectorService.text_search_fallback svc query in
  let vector :=
    VectorService.similarity_search svc query
      (ChatService.top_k_of (ChatService._determine_query_type query))
      (1 # 100) in
  let merged := ChatService.retrieve svc query in
  merged = (keyword_matches ++ take 10 vector.1,
            replicate (length keyword_matches) (9 # 10)%Q ++ take 10 vector.2) ∧
  (∀ i, i < length keyword_matches →
        merged.1 !! i = keyword_matches !! i ∧ merged.2 !! i = Some (9 # 10)%Q) ∧
  (∀ i, length keyword_matches ≤ i →
        merged.1 !! i = take 10 vector.1 !! (i - length keyword_matches) ∧
        merged.2 !! i = take 10 vector.2 !! (i - length keyword_matches)) ∧
  length merged.1 ≤ length keyword_matches + 10.
Proof.
  intros Hname Hfound keyword_matches vector merged.
  assert (Hmerged :
    merged = (keyword_matches ++ take 10 vector.1,
              replicate (length keyword_matches) (9 # 10)%Q ++ take 10 vector.2)).
  { subst merged vector keyword_matches. unfold ChatService.retrieve.
    destruct (VectorService.similarity_search _ _ _ _) as [docs scores].
    rewrite Hname.
    by destruct (VectorService.text_search_fallback svc query). }
  split; [exact Hmerged |]. rewrite Hmerged. simpl.
  split; [| split].
  - intros i Hi. split.
    + by apply lookup_app_l.
    + rewrite lookup_app_l by (by rewrite length_replicate).
      by apply lookup_replicate_2.
  - intros i Hi. split.
    + by rewrite lookup_app_r.
    + rewrite lookup_app_r by (by rewrite length_replicate).
      by rewrite length_replicate.
  - rewrite length_app, length_take. lia.
Qed.

Lemma name_query_merge_witness :
  ChatService._is_name_query (Py.s "Who is Ramesh Iyer?") = true ∧
  VectorService.text_search_fallback Sample.team (Py.s "Who is Ramesh Iyer?") ≠ [] ∧
  length (ChatService.retrieve Sample.team (Py.s "Who is Ramesh Iyer?")).1
  ≤ length (VectorService.text_search_fallback Sample.team
              (Py.s "Who is Ramesh Iyer?")) + 10.
Proof.
  assert (Hname : ChatService._is_name_query (Py.s "Who is Ramesh Iyer?") = true)
    by (vm_compute; reflexivity).
  assert (Hfound : VectorService.text_search_fallback Sample.team
                     (Py.s "Who is Ramesh Iyer?") ≠ [])
    by (vm_compute; discriminate).
  split; [exact Hname |]. split; [exact Hfound |].
  exact (proj2 (proj2 (proj2 (name_query_merge _ _ Hname Hfound)))).
Defined.

(** ** Context assembly *)

Section ContextFacts.

Import ChatService.


End ContextFacts.



(** ** Scores and confidence *)

Section ScoreFacts.

Import VectorService ChatService.

#[local] Open Scope Q_scope.

Lemma sq_diff_nonneg (a b : Q) : 0 <= Chroma.sq_diff a b.
Proof.
  unfold Chroma.sq_diff. generalize (a - b). intros [n d].
  unfold Qle, Qmult. simpl. nia.
Qed.

Lemma distance_nonneg (a b : list Q) : 0 <= Chroma.distance a b.
Proof.
  unfold Chroma.distance. revert b.
  induction a as [|x a IH]; intros [|y b]; simpl; try apply Qle_refl.
  apply (Qplus_le_compat 0 _ 0 _); [apply sq_diff_nonneg | apply IH].
Qed.

Lemma insert_by_distance_Forall {A} (P : A * Q → Prop) x (l : list (A * Q)) :
  P x → Forall P l → Forall P (Chroma.insert_by_distance x l).
Proof.
  intros Hx. induction 1 as [|y l Hy Hl IH]; simpl.
  - by constructor.
  - destruct (Qle_bool x.2 y.2); repeat constructor; done.
Qed.

Lemma nearest_first_Forall {A} (P : A * Q → Prop) (l : list (A * Q)) :
  Forall P l → Forall P (Chroma.nearest_first l).
Proof.
  unfold Chroma.nearest_first. induction 1; simpl; [done |].
  by apply insert_by_distance_Forall.
Qed.

(** The distances reported by the store are not negative. *)
Lemma query_distances_nonneg c e n rows :
  Chroma.query c e n = Ok rows → Forall (λ row, 0 <= row.2) rows.
Proof.
  unfold Chroma.query. destruct (n <=? 0)%Z; [done |]. intros [= <-].
  apply Forall_take, nearest_first_Forall, Forall_fmap, Forall_forall.
  intros r _. simpl. apply distance_nonneg.
Qed.

(** [s = 1 / (1 + d)] lies in [(0, 1]] for a distance [d >= 0]. *)
Lemma similarity_in_unit_interval (d s : Q) :
  0 <= d → truediv 1 (1 + d) = Ok s → 0 < s ∧ s <= 1.
Proof.
  intros Hd. unfold truediv. destruct (Qeq_bool (1 + d) 0); [done |].
  intros [= <-].
  assert (Hpos : 0 < 1 + d).
  { apply Qlt_le_trans with (1 + 0); [reflexivity |].
    apply Qplus_le_compat; [apply Qle_refl | done]. }
  split.
  - apply Qlt_shift_div_l; [done |]. rewrite Qmult_0_l. reflexivity.
  - apply Qle_shift_div_r; [done |]. rewrite Qmult_1_l.
    apply Qle_trans with (1 + 0); [discriminate |].
    apply Qplus_le_compat; [apply Qle_refl | done].
Qed.

Lemma scored_rows_in_unit_interval rows docs :
  Forall (λ row : Py.str * metadata * Q, 0 <= row.2) rows →
  scored_rows rows = Ok docs →
  Forall (λ d, 0 < doc_score d ∧ doc_score d <= 1) docs.
Proof.
  intros Hrows. revert docs.
  induction Hrows as [|row rows Hrow _ IH]; intros docs; unfold scored_rows; simpl.
  - by intros [= <-].
  - destruct (truediv 1 (1 + row.2)) as [sc|] eqn:Esc; simpl; [| done].
    fold (scored_rows rows).
    destruct (scored_rows rows) as [docs'|]; simpl; [| done].
    intros [= <-]. constructor; [| by apply IH].
    simpl. by eapply similarity_in_unit_interval.
Qed.

(** Every similarity score lies in [(0, 1]]. *)
Lemma candidates_in_unit_interval svc query top_k :
  Forall (λ d, 0 < doc_score d ∧ doc_score d <= 1)
         (candidates svc query top_k).
Proof.
  unfold candidates. destruct (collection svc) as [c|]; [| by constructor].
  destruct (_generate_improved_embeddings [query]) as [[|e es]|err]; simpl;
    try by constructor.
  destruct (Chroma.query c e top_k) as [rows|err] eqn:Eq; simpl;
    [| by constructor].
  destruct (scored_rows rows) as [docs|err] eqn:Es; simpl; [| by constructor].
  eapply scored_rows_in_unit_interval; [| done].
  by eapply query_distances_nonneg.
Qed.

Lemma retrieve_scores (svc : VectorService.t) (query : Py.str) :
  length (retrieve svc query).1 = length (retrieve svc query).2 ∧
  Forall (λ sc, 0 <= sc) (retrieve svc query).2.
Proof.
  unfold retrieve. rewrite similarity_search_spec. cbv beta iota zeta.
  set (kept := keep _ _).
  assert (Hkept : Forall (λ sc, 0 <= sc) (map doc_score kept)).
  { apply Forall_fmap, Forall_forall. intros d Hd.
    apply list_elem_of_filter in Hd as [_ Hd].
    pose proof (candidates_in_unit_interval svc query
                  (top_k_of (_determine_query_type query))) as Hall.
    rewrite Forall_forall in Hall. apply Hall in Hd as [Hd _].
    simpl. by apply Qlt_le_weak. }
  destruct (_is_name_query query); cbn [fst snd];
    [| split; [by rewrite length_map | done]].
  destruct (text_search_fallback svc query) as [|d ds] eqn:Ed; cbn [fst snd];
    [split; [by rewrite length_map | done] |].
  split.
  - rewrite !length_app, !length_take, length_replicate, length_map. done.
  - apply Forall_app. split; [| by apply Forall_take].
    apply Forall_replicate. discriminate.
Qed.

Lemma of_nat_nonneg (n : nat) : 0 <= of_nat n.
Proof. unfold of_nat, Qle. simpl. lia. Qed.

Lemma weight_nonneg (i : nat) : 0 <= 1 / of_nat (i + 1).
Proof.
  apply Qmult_le_0_compat; [discriminate |].
  apply Qinv_le_0_compat, of_nat_nonneg.
Qed.

Lemma confidence_fold_nonneg (entries : list (nat * Q)) (acc : Q * Q) :
  Forall (λ entry, 0 <= entry.2) entries → 0 <= acc.1 → 0 <= acc.2 →
  let r :=
    fold_left
      (λ (acc : Q * Q) (entry : nat * Q),
         let weight := 1 / of_nat (entry.1 + 1) in
         (acc.1 + entry.2 * weight, acc.2 + weight))
      entries acc in
  0 <= r.1 ∧ 0 <= r.2.
Proof.
  intros Hall. revert acc.
  induction Hall as [|entry entries Hentry _ IH]; intros acc H1 H2; simpl;
    [done |].
  apply IH; simpl.
  - apply (Qplus_le_compat 0 _ 0 _); [done |].
    apply Qmult_le_0_compat; [done | apply weight_nonneg].
  - apply (Qplus_le_compat 0 _ 0 _); [done | apply weight_nonneg].
Qed.

Lemma confidence_bounds (scores : list Q) (has_context : bool) :
  Forall (λ sc, 0 <= sc) scores →
  0 <= _calculate_confidence scores has_context ∧
  _calculate_confidence scores has_context <= 1.
Proof.
  intros Hall. unfold _calculate_confidence.
  destruct (negb has_context || bool_decide (scores = [])); [by split |].
  destruct (confidence_loop scores) as [w t] eqn:Eloop.
  split; [| apply Q.le_min_r].
  apply Q.min_glb; [| discriminate].
  destruct (Qle_bool t 0) eqn:Et; simpl; [apply Qle_refl |].
  assert (Hwt : 0 <= w ∧ 0 <= t).
  { change w with (w, t).1. change t with (w, t).2 at 2. rewrite <- Eloop.
    apply confidence_fold_nonneg; [| apply Qle_refl | apply Qle_refl].
    apply Forall_forall. intros [i sc] Hin.
    apply list_elem_of_lookup in Hin as [j Hj].
    rewrite list_lookup_imap in Hj.
    destruct (take 3 scores !! j) as [sc'|] eqn:Hsc; [| done].
    injection Hj as _ <-. simpl.
    apply lookup_take_Some in Hsc as [Hsc _].
    rewrite Forall_forall in Hall. apply Hall.
    apply list_elem_of_lookup. by exists j. }
  destruct Hwt as [Hw Ht].
  apply Qmult_le_0_compat; [done | by apply Qinv_le_0_compat].
Qed.

Lemma confidence_formula (scores : list Q) :
  scores ≠ [] →
  _calculate_confidence scores true == Qmin (weighted_average_top3 scores) 1.
Proof.
  intros Hne. unfold _calculate_confidence.
  destruct scores as [|a [|b [|c rest]]]; [done | | |];
    unfold confidence_loop, weighted_average_top3; simpl;
    unfold of_nat; simpl;
    (apply Q.min_compat; [| reflexivity]); field.
Qed.

(** The average written out for three scores or more. *)
Lemma weighted_average_top3_unfold (a b c : Q) (rest : list Q) :
  weighted_average_top3 (a :: b :: c :: rest)
  == (a + b / 2 + c / 3) / (1 + 1 / 2 + 1 / 3).
Proof.
  unfold weighted_average_top3. simpl. unfold of_nat. simpl. field.
Qed.

End ScoreFacts.

(** C5. The confidence of the response of [process_query] is [0.0] when no
    chunk was retrieved; otherwise it is the smaller of 1 and the weighted
    average of the first three retrieval scores, the score of rank [i]
    weighted by [1/(i+1)]; in both cases it lies in [[0, 1]].  The same
    holds of [_calculate_confidence] on any list of scores. *)
Theorem confidence_is_capped_weighted_average
    (format_2f : Q → Py.str)
    (_generate_response :
       Py.str → Py.str → bool → Py.str → ChatService.query_type → bool → Py.str)
    (svc : VectorService.t) (cs : History.sessions)
    (query : Py.str) (sid : string) (now1 now2 : nat) :
  let retrieved := ChatService.retrieve svc query in
  let resp :=
    (ChatService.process_query format_2f _generate_response
       svc cs query sid now1 now2).1 in
  (confidence resp
   = ChatService._calculate_confidence retrieved.2
       (bool_decide (retrieved.1 ≠ []))) ∧
  (retrieved.1 = [] → confidence resp = 0%Q) ∧
  (retrieved.1 ≠ [] →
   (confidence resp
    == Qmin (ChatService.weighted_average_top3 retrieved.2) 1)%Q) ∧
  (0 <= confidence resp)%Q ∧ (confidence resp <= 1)%Q ∧
  (∀ scores, ChatService._calculate_confidence scores false = 0%Q) ∧
  (∀ has_context, ChatService._calculate_confidence [] has_context = 0%Q) ∧
  (∀ scores, scores ≠ [] →
     (ChatService._calculate_confidence scores true
      == Qmin (ChatService.weighted_average_top3 scores) 1)%Q).
Proof.
  intros retrieved resp.
  destruct (retrieve_scores svc query) as [Hlen Hnonneg].
  fold retrieved in Hlen, Hnonneg.
  assert (Hresp : confidence resp
                  = ChatService._calculate_confidence retrieved.2
                      (bool_decide (retrieved.1 ≠ []))).
  { subst resp. unfold ChatService.process_query, ChatService.process_query_try.
    fold retrieved. destruct retrieved as [docs scores]. simpl.
    by destruct docs. }
  split; [exact Hresp |]. rewrite Hresp.
  split; [| split; [| split; [| split; [| split; [| split]]]]].
  - intros ->. by rewrite bool_decide_false by (intros H; by apply H).
  - intros Hne. rewrite bool_decide_true by done.
    apply confidence_formula. intros Heq. rewrite Heq in Hlen.
    destruct retrieved.1; [done | simpl in Hlen; lia].
  - by apply confidence_bounds.
  - by apply confidence_bounds.
  - done.
  - intros has_context. unfold ChatService._calculate_confidence.
    by destruct has_context.
  - apply confidence_formula.
Qed.

(** ** The text search *)

Section TextSearchFacts.

Import VectorService.

Lemma lower_char_of_upper (c : ascii) :
  Py.is_upper c = true → Py.eqb_char (Py.lower_char c) c = false.
Proof.
  destruct c as [[] [] [] [] [] [] [] []]; vm_compute; congruence.
Qed.

Lemma lower_char_idempotent (c : ascii) :
  Py.lower_char (Py.lower_char c) = Py.lower_char c.
Proof. by destruct c as [[] [] [] [] [] [] [] []]. Qed.

Lemma eqb_reflexive (x : Py.str) : Py.eqb x x = true.
Proof.
  induction x as [|c x IH]; [done |]. simpl.
  unfold Py.eqb_char. by rewrite Ascii.eqb_refl.
Qed.

Lemma lower_is_lowercase (x : Py.str) : Py.eqb (Py.lower (Py.lower x)) (Py.lower x) = true.
Proof.
  unfold Py.lower. rewrite map_map.
  rewrite (map_ext _ Py.lower_char) by apply lower_char_idempotent.
  apply eqb_reflexive.
Qed.

(** A term that begins with a capital letter is not its own lowercase. *)
Lemma capitalised_not_lowercase (c : ascii) (x : Py.str) (n : nat) :
  Py.is_upper c = true → 1 ≤ n →
  Py.eqb (Py.lower (take n (c :: x))) (take n (c :: x)) = false.
Proof.
  intros Hc Hn. destruct n as [|n]; [lia |]. simpl.
  by rewrite lower_char_of_upper.
Qed.

Lemma findall_from_elem pat prev skip (x t : Py.str) :
  t ∈ Re.findall_from pat prev skip x →
  ∃ prev' y n, pat prev' y = Some n ∧ t = take n y.
Proof.
  revert prev skip. induction x as [|c x IH]; intros prev skip; simpl.
  - by intros ?%elem_of_nil.
  - destruct skip as [|k]; [| by apply IH].
    destruct (pat prev (c :: x)) as [n|] eqn:E; [| by apply IH].
    intros [-> | Hin]%elem_of_cons; [by exists prev, (c :: x), n | by eapply IH].
Qed.

Lemma full_name_capitalised prev x n :
  Re.full_name prev x = Some n →
  ∃ c x', x = c :: x' ∧ Py.is_upper c = true ∧ 1 ≤ n.
Proof.
  unfold Re.full_name. destruct x as [|c x1]; [done |].
  destruct (Re.boundary_before prev); simpl; [| done].
  destruct (Py.is_upper c) eqn:Ec; [| done].
  destruct (Re.run Py.is_lower x1 =? 0); [done |].
  destruct (drop _ x1) as [|sp [|c2 x2]]; try done.
  destruct (Py.eqb_char sp Re.space && Py.is_upper c2); [| done].
  destruct (_ || _); [done |]. intros [= <-]. exists c, x1. split; [done |].
  split; [done | lia].
Qed.

Lemma single_name_capitalised prev x n :
  Re.single_name prev x = Some n →
  ∃ c x', x = c :: x' ∧ Py.is_upper c = true ∧ 1 ≤ n.
Proof.
  unfold Re.single_name. destruct x as [|c x1]; [done |].
  destruct (Re.boundary_before prev); simpl; [| done].
  destruct (Py.is_upper c) eqn:Ec; [| done].
  destruct (_ && _); [| done]. intros [= <-]. exists c, x1. split; [done |].
  split; [done | lia].
Qed.

(** The terms found by the name patterns are not lowercase. *)
Lemma name_terms_not_lowercase (query t : Py.str) :
  t ∈ name_terms query → Py.eqb (Py.lower t) t = false.
Proof.
  unfold name_terms, Re.findall.
  intros [Hin | Hin]%elem_of_app;
    apply findall_from_elem in Hin as (prev & y & n & Hpat & ->).
  - apply full_name_capitalised in Hpat as (c & x' & -> & Hc & Hn).
    by apply capitalised_not_lowercase.
  - apply single_name_capitalised in Hpat as (c & x' & -> & Hc & Hn).
    by apply capitalised_not_lowercase.
Qed.

Lemma name_keywords_lowercase :
  Forall (λ t, Py.eqb (Py.lower t) t = true) name_keywords.
Proof. unfold name_keywords. simpl map. repeat constructor. Qed.

(** The terms taken from the keyword list are lowercase. *)
Lemma keyword_terms_lowercase (query t : Py.str) :
  t ∈ keyword_terms query →
  Py.eqb (Py.lower t) t = true ∧ t ∈ name_keywords.
Proof.
  unfold keyword_terms. intros [_ Hin]%list_elem_of_filter. split; [| done].
  pose proof name_keywords_lowercase as Hall. rewrite Forall_forall in Hall.
  by apply Hall.
Qed.

(** One step of the loop of [match_score]. *)
Lemma match_score_from (content_lower : Py.str) (terms : list Py.str) :
  let hit t := Py.contains content_lower (Py.lower t) in
  let lowercase t := Py.eqb (Py.lower t) t in
  let loop :=
    fold_left
      (λ match_score term,
         if Py.contains content_lower (Py.lower term) then
           if Py.eqb (Py.lower term) term
           then Qmax match_score (95 # 100)
           else Qmax match_score (9 # 10)
         else match_score) terms in
  loop (95 # 100)%Q = (95 # 100)%Q ∧
  loop (9 # 10)%Q
  = (if existsb (λ t, hit t && lowercase t) terms then 95 # 100 else 9 # 10)%Q ∧
  loop 0%Q
  = (if existsb (λ t, hit t && lowercase t) terms then 95 # 100
     else if existsb hit terms then 9 # 10 else 0)%Q.
Proof.
  intros hit lowercase. induction terms as [|t terms (IH95 & IH90 & IH0)];
    [done |].
  simpl. fold (hit t). fold (lowercase t).
  destruct (hit t), (lowercase t); simpl;
    change (Qmax (95 # 100) (95 # 100)) with (95 # 100)%Q;
    change (Qmax (95 # 100) (9 # 10)) with (95 # 100)%Q;
    change (Qmax (9 # 10) (95 # 100)) with (95 # 100)%Q;
    change (Qmax (9 # 10) (9 # 10)) with (9 # 10)%Q;
    change (Qmax 0 (95 # 100)) with (95 # 100)%Q;
    change (Qmax 0 (9 # 10)) with (9 # 10)%Q;
    rewrite ?IH95, ?IH90, ?IH0; try done.
  all: by destruct (existsb _ terms).
Qed.

Lemma match_score_spec (terms : list Py.str) (content_lower : Py.str) :
  match_score terms content_lower
  = (if existsb (λ t, Py.contains content_lower (Py.lower t)
                      && Py.eqb (Py.lower t) t) terms
     then 95 # 100
     else if existsb (λ t, Py.contains content_lower (Py.lower t)) terms
          then 9 # 10 else 0)%Q.
Proof. apply match_score_from. Qed.

Lemma insert_by_score_perm x l : insert_by_score x l ≡ₚ x :: l.
Proof.
  induction l as [|y l IH]; [done |]. simpl.
  destruct (Qle_bool _ _); [done |]. rewrite IH. apply Permutation_swap.
Qed.

Lemma sort_by_score_perm l : sort_by_score l ≡ₚ l.
Proof.
  unfold sort_by_score. induction l as [|x l IH]; [done |]. simpl.
  by rewrite insert_by_score_perm, IH.
Qed.

Lemma text_matches_elem (terms : list Py.str) (c : Chroma.collection) (d : Doc) :
  d ∈ text_matches terms c ↔
  ∃ r, r ∈ c ∧
       d = {| doc_content := Chroma.row_document r;
              doc_metadata := Chroma.row_metadata r;
              doc_score := match_score terms (Py.lower (Chroma.row_document r)) |} ∧
       Qle_bool (match_score terms (Py.lower (Chroma.row_document r))) 0 = false.
Proof.
  unfold text_matches. rewrite list_elem_of_omap. split.
  - intros (r & Hr & Hsome). exists r. split; [done |].
    destruct (Qle_bool _ 0); simpl in Hsome; [done |]. by injection Hsome as <-.
  - intros (r & Hr & -> & Hpos). exists r. split; [done |]. by rewrite Hpos.
Qed.

End TextSearchFacts.

(** C2, as amended.  The search terms are the terms found by the name
    patterns, which are never lowercase, followed by the keywords of the
    fixed list found in the query, which are lowercase; when there is none,
    the lowercased query is the only term.  A chunk scores [0.95] when some
    lowercase term occurs in it, whatever the position of that term among the
    search terms, [0.9] when only terms that are not lowercase occur in it,
    and is left out when no term occurs in it; the scores of several terms
    are not added.  The result is the first 10 matches in the order of
    decreasing score. *)
Theorem keyword_fallback_scores (c : Chroma.collection) (query : Py.str) :
  let svc := {| VectorService.collection := Some c |} in
  let terms := VectorService.search_terms query in
  let found := VectorService.name_terms query ++ VectorService.keyword_terms query in
  let hit (content t : Py.str) := Py.contains (Py.lower content) (Py.lower t) in
  let lowercase (t : Py.str) := Py.eqb (Py.lower t) t in
  (∀ t, t ∈ VectorService.name_terms query → lowercase t = false) ∧
  (∀ t, t ∈ VectorService.keyword_terms query →
        lowercase t = true ∧ t ∈ VectorService.name_keywords) ∧
  (terms = (if bool_decide (found = []) then [Py.lower query] else found)) ∧
  lowercase (Py.lower query) = true ∧
  (∀ content,
     VectorService.match_score terms (Py.lower content)
     = (if existsb (λ t, hit content t && lowercase t) terms then 95 # 100
        else if existsb (hit content) terms then 9 # 10 else 0)%Q) ∧
  VectorService.text_search_fallback svc query
  = take 10 (VectorService.sort_by_score (VectorService.text_matches terms c)) ∧
  (∀ d, d ∈ VectorService.text_search_fallback svc query →
        (∃ r, r ∈ c ∧ doc_content d = Chroma.row_document r
                    ∧ doc_metadata d = Chroma.row_metadata r) ∧
        doc_score d = VectorService.match_score terms (Py.lower (doc_content d)) ∧
        existsb (hit (doc_content d)) terms = true ∧
        (doc_score d = (95 # 100)%Q ∨ doc_score d = (9 # 10)%Q)) ∧
  (∀ r, r ∈ c → existsb (hit (Chroma.row_document r)) terms = true →
        ∃ d, d ∈ VectorService.text_matches terms c ∧
             doc_content d = Chroma.row_document r ∧
             doc_score d
             = VectorService.match_score terms (Py.lower (Chroma.row_document r))).
Proof.
  intros svc terms found hit lowercase.
  split; [apply name_terms_not_lowercase |].
  split; [apply keyword_terms_lowercase |].
  split.
  { subst terms found. unfold VectorService.search_terms.
    destruct (VectorService.name_terms query ++ VectorService.keyword_terms query);
      [by rewrite bool_decide_true | by rewrite bool_decide_false]. }
  split; [apply lower_is_lowercase |].
  split; [intros content; apply match_score_spec |].
  split; [done |].
  split.
  - intros d Hd. subst svc. unfold VectorService.text_search_fallback in Hd.
    cbn [VectorService.collection] in Hd. fold terms in Hd.
    apply subseteq_take in Hd. rewrite sort_by_score_perm in Hd.
    apply text_matches_elem in Hd as (r & Hr & -> & Hpos). simpl.
    split; [by exists r |]. split; [done |].
    subst hit lowercase. cbv beta.
    rewrite match_score_spec in Hpos |- *.
    destruct (existsb
                (λ t, Py.contains (Py.lower (Chroma.row_document r)) (Py.lower t)
                      && Py.eqb (Py.lower t) t) terms) eqn:Elow.
    + split; [| by left].
      apply existsb_exists in Elow as (t & Ht & Hhit).
      apply existsb_exists. exists t. split; [done |].
      by apply andb_true_iff in Hhit as [? _].
    + destruct (existsb
                  (λ t, Py.contains (Py.lower (Chroma.row_document r)) (Py.lower t))
                  terms); [| done].
      split; [done | by right].
  - intros r Hr Hhit.
    exists {| doc_content := Chroma.row_document r;
              doc_metadata := Chroma.row_metadata r;
              doc_score :=
                VectorService.match_score terms
                  (Py.lower (Chroma.row_document r)) |}.
    split; [| done].
    apply text_matches_elem. exists r. split; [done |]. split; [done |].
    subst hit. cbv beta in Hhit.
    rewrite match_score_spec, Hhit. clear Hhit.
    match goal with
    | |- context [existsb ?f terms] => destruct (existsb f terms)
    end; reflexivity.
Qed.

(** C2, as stated: the first matching term does not decide the score.  The
    query [Ramesh] gives the terms [Ramesh] (name pattern) and [ramesh]
    (keyword list); the chunk "Ramesh Iyer is the CTO." is found first
    through [Ramesh], which stands for [0.9], and scores [0.95]. *)
Lemma keyword_fallback_first_match_counterexample :
  ¬ (∀ (svc : VectorService.t) (query : Py.str) (d : Doc),
       d ∈ VectorService.text_search_fallback svc query →
       (doc_score d
        == VectorService.first_match_score query (Py.lower (doc_content d)))%Q).
Proof.
  intros Hclaim.
  pose (d := {| doc_content := Py.s "Ramesh Iyer is the CTO.";
                doc_metadata := Chroma.row_metadata
                                  (Sample.chunk 1 "d1" "team.txt" "");
                doc_score := 95 # 100 |}).
  assert (Hd : d ∈ VectorService.text_search_fallback Sample.team (Py.s "Ramesh")).
  { assert (Heq : VectorService.text_search_fallback Sample.team (Py.s "Ramesh")
                  = [d]) by (vm_compute; reflexivity).
    rewrite Heq. apply list_elem_of_here. }
  specialize (Hclaim Sample.team (Py.s "Ramesh") d Hd).
  vm_compute in Hclaim. discriminate.
Qed.

(** ** The scenarios of the specification, evaluated *)

(** The query "Who is Ramesh Iyer?" is a name query; the text search finds
    the chunk about the CTO, and the retrieval returns it first with the
    merged score [0.9]. *)
Example name_query_scenario :
  let query := Py.s "Who is Ramesh Iyer?" in
  let retrieved := ChatService.retrieve Sample.team query in
  ChatService._is_name_query query = true ∧
  map doc_content (VectorService.text_search_fallback Sample.team query)
  = [Py.s "Ramesh Iyer is the CTO."] ∧
  map doc_content (take 1 retrieved.1) = [Py.s "Ramesh Iyer is the CTO."] ∧
  take 1 retrieved.2 = [(9 # 10)%Q] ∧
  length retrieved.1 = 3.
Proof. vm_compute. repeat split; reflexivity. Qed.

(** "Give me a summary of the project" is a summary query, searched with
    [top_k = 8]. *)
Example summary_query_scenario :
  let query := Py.s "Give me a summary of the project" in
  ChatService._determine_query_type query = ChatService.Summary ∧
  ChatService.top_k_of (ChatService._determine_query_type query) = 8%Z.
Proof. vm_compute. split; reflexivity. Qed.

(** * Further properties of the two services *)

(** ** Chat history *)

(** Clearing a session empties its history and no other; it changes nothing
    when repeated; clearing all sessions empties every history. *)
Theorem clear_chat_history_forgets
    (cs : History.sessions) (sid other : string) :
  History.get_chat_history (History.clear_chat_history cs sid) sid = [] ∧
  (sid ≠ other →
   History.get_chat_history (History.clear_chat_history cs sid) other
   = History.get_chat_history cs other) ∧
  History.clear_chat_history (History.clear_chat_history cs sid) sid
  = History.clear_chat_history cs sid ∧
  History.get_chat_history (History.clear_all_sessions cs) other = [] ∧
  (∀ q r srcs t1 t2,
     History.get_chat_history
       (History.clear_chat_history
          (History._update_chat_history cs sid q r srcs t1 t2) sid) sid = []).
Proof.
  assert (Hgone : ∀ cs' : History.sessions,
            History.clear_chat_history cs' sid !! sid = None).
  { intros cs'. unfold History.clear_chat_history.
    destruct (cs' !! sid) eqn:E; [apply lookup_delete_eq | done]. }
  split; [| split; [| split; [| split]]].
  - unfold History.get_chat_history. by rewrite Hgone.
  - intros Hne. unfold History.get_chat_history, History.clear_chat_history.
    destruct (cs !! sid); [by rewrite lookup_delete_ne | done].
  - unfold History.clear_chat_history at 1. by rewrite Hgone.
  - unfold History.get_chat_history, History.clear_all_sessions.
    by rewrite lookup_empty.
  - intros. unfold History.get_chat_history. by rewrite Hgone.
Qed.

Lemma clear_chat_history_forgets_witness :
  "s1"%string ≠ "s2"%string ∧
  History.get_chat_history
    (History.clear_chat_history Sample.one_exchange "s2") "s1"
  = History.get_chat_history Sample.one_exchange "s1".
Proof.
  assert (Hne : "s2"%string ≠ "s1"%string) by discriminate.
  split; [discriminate |].
  exact (proj1 (proj2 (clear_chat_history_forgets Sample.one_exchange "s2" "s1")) Hne).
Defined.

Lemma trimmed_keeps_exchange (old : list ChatMessage) (u a : ChatMessage) :
  ∃ kept, History.trimmed (old ++ [u; a]) = kept ++ [u; a] ∧
          kept `suffix_of` old ∧ length kept ≤ 18.
Proof.
  unfold History.trimmed. rewrite length_app. simpl.
  destruct (20 <? length old + 2) eqn:E.
  - apply Nat.ltb_lt in E. exists (Py.last_n 18 old).
    split; [| split; [apply last_n_suffix | rewrite last_n_length; lia]].
    unfold Py.last_n. rewrite length_app. simpl.
    rewrite drop_app_le by lia. f_equal. f_equal. lia.
  - apply Nat.ltb_ge in E. exists old.
    split; [done |]. split; [done | lia].
Qed.

(** [process_query] records the exchange: afterwards the history of the
    session ends with the user message holding the query and the assistant
    message holding the response text and the sources of the response,
    preceded by the most recent 18 earlier messages at most; the histories of
    the other sessions are unchanged. *)
Theorem process_query_records_exchange
    (format_2f : Q → Py.str)
    (_generate_response :
       Py.str → Py.str → bool → Py.str → ChatService.query_type → bool → Py.str)
    (svc : VectorService.t) (cs : History.sessions)
    (query : Py.str) (sid : string) (now1 now2 : nat) :
  let result :=
    ChatService.process_query format_2f _generate_response
      svc cs query sid now1 now2 in
  (∃ kept,
     History.get_chat_history result.2 sid
     = kept ++ [ {| role := Py.s "user"; content := query;
                    timestamp := now1; sources := [] |};
                 {| role := Py.s "assistant"; content := response result.1;
                    timestamp := now2; sources := resp_sources result.1 |} ] ∧
     kept `suffix_of` History.get_chat_history cs sid ∧ length kept ≤ 18) ∧
  (∀ other, sid ≠ other → result.2 !! other = cs !! other).
Proof.
  intros result. subst result.
  unfold ChatService.process_query, ChatService.process_query_try.
  destruct (ChatService.retrieve svc query) as [docs scores]. simpl.
  split.
  - unfold History.get_chat_history at 1. rewrite update_lookup. simpl.
    apply trimmed_keeps_exchange.
  - intros other Hne. by apply update_lookup_ne.
Qed.

(** ** Sources and context *)

(** The extracted sources hold no duplicate, and a name is among them
    exactly when it is the source of a retrieved chunk; a chunk whose
    metadata has no [source] counts as [Unknown]. *)
Theorem extract_sources_distinct (relevant_docs : list Doc) :
  NoDup (ChatService._extract_sources relevant_docs) ∧
  (∀ name,
     name ∈ ChatService._extract_sources relevant_docs ↔
     ∃ doc, doc ∈ relevant_docs ∧ ChatService.source_of doc = name) ∧
  (∀ doc, doc ∈ relevant_docs →
          doc_metadata doc !! "source"%string = None →
          Py.s "Unknown" ∈ ChatService._extract_sources relevant_docs) ∧
  length (ChatService._extract_sources relevant_docs) ≤ length relevant_docs.
Proof.
  assert (Hmem : ∀ name,
            name ∈ ChatService._extract_sources relevant_docs ↔
            ∃ doc, doc ∈ relevant_docs ∧ ChatService.source_of doc = name).
  { intros name. unfold ChatService._extract_sources.
    rewrite elem_of_elements, elem_of_list_to_set, list_elem_of_fmap.
    split; intros (doc & H1 & H2); exists doc; done. }
  split; [unfold ChatService._extract_sources; apply NoDup_elements |].
  split; [exact Hmem |]. split.
  - intros doc Hdoc Hnone. apply Hmem. exists doc. split; [done |].
    unfold ChatService.source_of. by rewrite Hnone.
  - unfold ChatService._extract_sources.
    transitivity (length (map ChatService.source_of relevant_docs));
      [| by rewrite length_map].
    apply submseteq_length, NoDup_submseteq; [apply NoDup_elements |].
    intros name Hname. by apply elem_of_elements, elem_of_list_to_set in Hname.
Qed.

Lemma extract_sources_distinct_witness :
  (∃ doc, doc ∈ (ChatService.retrieve Sample.team (Py.s "Who is Ramesh Iyer?")).1 ∧
          ChatService.source_of doc = Py.s "team.txt") ∧
  Py.s "team.txt"
  ∈ ChatService._extract_sources
      (ChatService.retrieve Sample.team (Py.s "Who is Ramesh Iyer?")).1.
Proof.
  assert (Hdoc : ∃ doc,
            doc ∈ (ChatService.retrieve Sample.team (Py.s "Who is Ramesh Iyer?")).1 ∧
            ChatService.source_of doc = Py.s "team.txt").
  { eexists. split; [| shelve].
    assert (Hlook : (ChatService.retrieve Sample.team
                       (Py.s "Who is Ramesh Iyer?")).1 !! 0
                    = Some {| doc_content := Py.s "Ramesh Iyer is the CTO.";
                              doc_metadata :=
                                Chroma.row_metadata
                                  (Sample.chunk 1 "d1" "team.txt" "");
                              doc_score := 95 # 100 |})
      by (vm_compute; reflexivity).
    eapply list_elem_of_lookup_2, Hlook.
    Unshelve. vm_compute. reflexivity. }
  split; [exact Hdoc |].
  exact (proj2 (proj1 (proj2 (extract_sources_distinct _)) _) Hdoc).
Defined.

Lemma render_part_nonempty (part : Py.str * Py.str) :
  ChatService.render_part part ≠ [].
Proof.
  unfold ChatService.render_part. intros Heq. apply (f_equal length) in Heq.
  rewrite !length_app in Heq. simpl in Heq. lia.
Qed.

(** For a detail query the context is made of one entry for each of the
    first 8 retrieved chunks, for a default query for each of the first 5:
    the entries, joined by blank lines, are the header
    [[Source i+1: source (relevance: score)]], a newline and the whole
    content of the chunk, of any length, where the source is the ["source"]
    of the chunk metadata, or [Unknown] without one.  For every query type
    the context string is empty exactly when no chunk was retrieved. *)
Theorem context_budget_detail_default
    (format_2f : Q → Py.str) (relevant_docs : list Doc)
    (qt : ChatService.query_type) :
  let parts := ChatService.context_parts format_2f relevant_docs qt in
  let budget :=
    match qt with ChatService.Default => 5 | _ => 8 end in
  length parts = Nat.min budget (length relevant_docs) ∧
  (qt ≠ ChatService.Summary →
   ∀ i part, parts !! i = Some part →
             ∃ doc, relevant_docs !! i = Some doc ∧ part.2 = doc_content doc) ∧
  (ChatService._build_context format_2f relevant_docs qt = [] ↔
   relevant_docs = []) ∧
  (qt ≠ ChatService.Summary →
   ChatService._build_context format_2f relevant_docs qt
   = Py.join (Py.newline ++ Py.newline)
       (imap (λ i doc,
                let source :=
                  match doc_metadata doc !! "source"%string with
                  | Some (SStr v) => v
                  | Some (SInt v) => Py.s (pretty v)
                  | Some (SBool true) => Py.s "True"
                  | Some (SBool false) => Py.s "False"
                  | None => Py.s "Unknown"
                  end in
                (Py.s "[Source " ++ Py.s (pretty (i + 1)) ++ Py.s ": "
                   ++ source ++ Py.s " (relevance: "
                   ++ format_2f (doc_score doc) ++ Py.s ")]")
                ++ Py.newline ++ doc_content doc)
             (take budget relevant_docs))).
Proof.
  intros parts budget. subst parts budget.
  split; [| split; [| split]]; cycle 3.
  - intros Hqt. unfold ChatService._build_context, ChatService.context_parts.
    destruct relevant_docs as [|d ds]; [by destruct qt |].
    destruct qt; [done | |]; by rewrite fmap_imap.
  - destruct qt; simpl; by rewrite length_imap, length_take.
  - intros Hqt i part Hpart.
    destruct qt; [done | |]; simpl in Hpart;
      rewrite list_lookup_imap in Hpart;
      destruct (take _ relevant_docs !! i) as [doc|] eqn:Hdoc; try done;
      injection Hpart as <-; apply lookup_take_Some in Hdoc as [Hdoc _];
      by exists doc.
  - split; [| by intros ->].
    destruct relevant_docs as [|d ds]; [done |]. intros Hempty. exfalso.
    unfold ChatService._build_context in Hempty.
    revert Hempty. apply join_nonempty.
    + destruct qt; simpl; discriminate.
    + apply Forall_forall. intros p Hp.
      apply list_elem_of_fmap in Hp as (part & -> & _).
      apply render_part_nonempty.
Qed.

Lemma context_budget_detail_default_witness :
  ChatService.Detail ≠ ChatService.Summary ∧
  ChatService._build_context (λ _, Py.s "0.95")
    (take 1 (ChatService.retrieve Sample.team (Py.s "Who is Ramesh Iyer?")).1)
    ChatService.Detail
  = Py.s "[Source 1: team.txt (relevance: 0.95)]" ++ Py.newline
      ++ Py.s "Ramesh Iyer is the CTO.".
Proof.
  assert (Hqt : ChatService.Detail ≠ ChatService.Summary) by discriminate.
  split; [exact Hqt |].
  rewrite (proj2 (proj2 (proj2
             (context_budget_detail_default (λ _, Py.s "0.95")
                (take 1 (ChatService.retrieve Sample.team
                           (Py.s "Who is Ramesh Iyer?")).1)
                ChatService.Detail))) Hqt).
  vm_compute. reflexivity.
Defined.

(** ** Retrieval *)

Section RetrievalFacts.

Import VectorService ChatService.

(** The retrieval of a name query whose text search finds matches. *)
Lemma retrieve_merged svc query :
  _is_name_query query = true →
  text_search_fallback svc query ≠ [] →
  retrieve svc query
  = (text_search_fallback svc query
       ++ take 10 (similarity_search svc query
                     (top_k_of (_determine_query_type query)) (1 # 100)).1,
     replicate (length (text_search_fallback svc query)) (9 # 10)%Q
       ++ take 10 (similarity_search svc query
                     (top_k_of (_determine_query_type query)) (1 # 100)).2).
Proof.
  intros Hname Hfound. unfold retrieve.
  destruct (similarity_search _ _ _ _) as [docs scores]. rewrite Hname.
  by destruct (text_search_fallback svc query).
Qed.

Lemma scored_rows_length rows docs :
  scored_rows rows = Ok docs → length docs = length rows.
Proof.
  revert docs. induction rows as [|row rows IH]; intros docs;
    unfold scored_rows; simpl.
  - by intros [= <-].
  - destruct (truediv 1 (1 + row.2)); simpl; [| done].
    fold (scored_rows rows). destruct (scored_rows rows) as [docs'|];
      simpl; [| done].
    intros [= <-]. simpl. by rewrite (IH docs').
Qed.

Lemma candidates_length svc query top_k :
  length (candidates svc query top_k) ≤ Z.to_nat top_k.
Proof.
  unfold candidates. destruct (collection svc) as [c|]; [| simpl; lia].
  destruct (_generate_improved_embeddings [query]) as [[|e es]|err]; simpl;
    try lia.
  unfold Chroma.query. destruct (top_k <=? 0)%Z; simpl; [lia |].
  destruct (scored_rows _) as [docs|err] eqn:Es; simpl; [| lia].
  apply scored_rows_length in Es. rewrite Es, length_take. lia.
Qed.

Lemma keep_length thr docs : length (keep thr docs) ≤ length docs.
Proof. unfold keep. apply length_filter. Qed.

Lemma text_search_fallback_length svc query :
  length (text_search_fallback svc query) ≤ 10.
Proof.
  unfold text_search_fallback. destruct (collection svc); simpl; [| lia].
  rewrite length_take. lia.
Qed.

End RetrievalFacts.

(** A similarity search returns at most [top_k] chunks, none when [top_k]
    is not positive; the scores are the scores of the returned chunks, in the
    same order; every score reaches the threshold and lies in [(0, 1]]. *)
Theorem similarity_search_results
    (svc : VectorService.t) (query : Py.str) (top_k : Z) (score_threshold : Q) :
  let result :=
    VectorService.similarity_search svc query top_k score_threshold in
  length result.1 ≤ Z.to_nat top_k ∧
  result.2 = map doc_score result.1 ∧
  Forall (λ sc, (score_threshold <= sc)%Q ∧ (0 < sc)%Q ∧ (sc <= 1)%Q) result.2.
Proof.
  intros result. subst result. rewrite similarity_search_spec. simpl.
  split; [| split; [done |]].
  - etransitivity; [apply keep_length | apply candidates_length].
  - apply Forall_fmap, Forall_forall. intros d Hd.
    apply list_elem_of_filter in Hd as [Hthr Hd]. simpl.
    split; [by apply Qle_bool_iff, Is_true_true |].
    pose proof (candidates_in_unit_interval svc query top_k) as Hall.
    rewrite Forall_forall in Hall. by apply Hall.
Qed.

(** The retrieval of [process_query] returns as many scores as chunks and
    never more than 20 chunks. *)
Theorem retrieve_at_most_20 (svc : VectorService.t) (query : Py.str) :
  length (ChatService.retrieve svc query).1
  = length (ChatService.retrieve svc query).2 ∧
  length (ChatService.retrieve svc query).1 ≤ 20.
Proof.
  split; [apply retrieve_scores |].
  assert (Hvec : ∀ thr,
            length (VectorService.similarity_search svc query
                      (ChatService.top_k_of
                         (ChatService._determine_query_type query)) thr).1 ≤ 20).
  { intros thr. rewrite similarity_search_spec. simpl.
    etransitivity; [apply keep_length |].
    etransitivity; [apply candidates_length |].
    destruct (ChatService._determine_query_type query); simpl; lia. }
  destruct (ChatService._is_name_query query) eqn:Hname.
  - destruct (decide (VectorService.text_search_fallback svc query = []))
      as [Hnone | Hfound].
    + unfold ChatService.retrieve.
      specialize (Hvec (1 # 100)%Q).
      destruct (VectorService.similarity_search _ _ _ _) as [docs scores].
      rewrite Hname, Hnone. done.
    + rewrite retrieve_merged by done. simpl.
      rewrite length_app, length_take.
      pose proof (text_search_fallback_length svc query). lia.
  - unfold ChatService.retrieve. specialize (Hvec (1 # 100)%Q).
    destruct (VectorService.similarity_search _ _ _ _) as [docs scores].
    by rewrite Hname.
Qed.

(** For a name query with three text-search matches or more the confidence
    of the response does not depend on the store or on the scores of the
    similarity search: it is what [_calculate_confidence] computes from
    three scores of [0.9]. *)
Theorem name_query_confidence
    (format_2f : Q → Py.str)
    (_generate_response :
       Py.str → Py.str → bool → Py.str → ChatService.query_type → bool → Py.str)
    (svc : VectorService.t) (cs : History.sessions)
    (query : Py.str) (sid : string) (now1 now2 : nat) :
  ChatService._is_name_query query = true →
  3 ≤ length (VectorService.text_search_fallback svc query) →
  confidence
    (ChatService.process_query format_2f _generate_response
       svc cs query sid now1 now2).1
  = ChatService._calculate_confidence [9 # 10; 9 # 10; 9 # 10]%Q true ∧
  has_context
    (ChatService.process_query format_2f _generate_response
       svc cs query sid now1 now2).1 = true.
Proof.
  intros Hname Hthree.
  unfold ChatService.process_query, ChatService.process_query_try.
  rewrite retrieve_merged; [| done | by intros Heq; rewrite Heq in Hthree; simpl in Hthree; lia].
  destruct (VectorService.text_search_fallback svc query)
    as [|d1 [|d2 [|d3 ds]]]; simpl in Hthree; try lia.
  simpl. split; [reflexivity | done].
Qed.

Lemma name_query_confidence_witness :
  ChatService._is_name_query (Py.s "Who is Ramesh?") = true ∧
  3 ≤ length (VectorService.text_search_fallback Sample.staff (Py.s "Who is Ramesh?")) ∧
  confidence
    (ChatService.process_query (λ _, Py.s "0.00") Sample.no_answer
       Sample.staff ∅ (Py.s "Who is Ramesh?") "s1" 1 2).1
  = ChatService._calculate_confidence [9 # 10; 9 # 10; 9 # 10]%Q true.
Proof.
  assert (Hname : ChatService._is_name_query (Py.s "Who is Ramesh?") = true)
    by (vm_compute; reflexivity).
  assert (Hthree : 3 ≤ length (VectorService.text_search_fallback Sample.staff
                                 (Py.s "Who is Ramesh?")))
    by (vm_compute; lia).
  split; [exact Hname |]. split; [exact Hthree |].
  exact (proj1 (name_query_confidence (λ _, Py.s "0.00") Sample.no_answer
                  Sample.staff ∅ _ "s1" 1 2 Hname Hthree)).
Defined.

(** ** Keyword detection *)

Section KeywordFacts.

Lemma startswith_app (k rest : Py.str) : Py.startswith (k ++ rest) k = true.
Proof.
  induction k as [|c k IH]; [by destruct rest |]. simpl.
  unfold Py.eqb_char. by rewrite Ascii.eqb_refl.
Qed.

Lemma contains_here (hay needle : Py.str) :
  Py.startswith hay needle = true → Py.contains hay needle = true.
Proof. intros H. destruct hay; cbn [Py.contains]; by rewrite H. Qed.

Lemma contains_app_l (before hay needle : Py.str) :
  Py.contains hay needle = true → Py.contains (before ++ hay) needle = true.
Proof.
  intros H. induction before as [|c before IH]; [done |].
  cbn [app Py.contains]. rewrite IH. apply orb_true_r.
Qed.

Lemma contains_infix (before k after : Py.str) :
  Py.contains (before ++ k ++ after) k = true.
Proof. apply contains_app_l, contains_here, startswith_app. Qed.

Lemma any_in_infix (keys : list Py.str) (before word after : Py.str) :
  Py.lower word ∈ keys →
  Py.any_in keys (Py.lower (before ++ word ++ after)) = true.
Proof.
  intros Hk. unfold Py.any_in. apply existsb_exists.
  exists (Py.lower word). split; [by apply list_elem_of_In |].
  unfold Py.lower. rewrite !map_app. apply contains_infix.
Qed.

End KeywordFacts.

(** The keyword checks of the chat service look for substrings of the
    lowercased query: an indicator in any letter case, at any place of the
    query, inside a longer word as well, is detected.  This holds of the
    back-reference check, of the visual check, of the name check, and of the
    summary keywords, which win over any detail keyword. *)
Theorem indicators_match_anywhere (before word after : Py.str) :
  (Py.lower word ∈ History.reference_indicators →
   History._query_references_previous_context (before ++ word ++ after) = true) ∧
  (Py.lower word ∈ ChatService.visual_indicators →
   ChatService._is_visual_query (before ++ word ++ after) = true) ∧
  (Py.lower word ∈ ChatService.name_indicators ++ ChatService.known_names →
   ChatService._is_name_query (before ++ word ++ after) = true) ∧
  (Py.lower word ∈ ChatService.summary_keywords →
   ChatService._determine_query_type (before ++ word ++ after)
   = ChatService.Summary).
Proof.
  split; [| split; [| split]].
  - apply any_in_infix.
  - apply any_in_infix.
  - intros [Hk | Hk]%elem_of_app; unfold ChatService._is_name_query;
      rewrite (any_in_infix _ _ _ _ Hk); by rewrite ?orb_true_r.
  - intros Hk. unfold ChatService._determine_query_type.
    by rewrite (any_in_infix _ _ _ _ Hk).
Qed.

Lemma indicators_match_anywhere_witness :
  Py.lower (Py.s "IT") ∈ History.reference_indicators ∧
  History._query_references_previous_context
    (Py.s "What is the arch" ++ Py.s "IT" ++ Py.s "ecture?") = true.
Proof.
  assert (Hk : Py.lower (Py.s "IT") ∈ History.reference_indicators).
  { apply list_elem_of_In. vm_compute. tauto. }
  split; [exact Hk |].
  exact (proj1 (indicators_match_anywhere (Py.s "What is the arch") (Py.s "IT")
                  (Py.s "ecture?")) Hk).
Defined.

(** ** Order of the search results *)

Section OrderFacts.

Import VectorService.

#[local] Open Scope Q_scope.

Lemma StronglySorted_filter {A} (R : relation A) (P : A → Prop)
    `{∀ x, Decision (P x)} (l : list A) :
  StronglySorted R l → StronglySorted R (filter P l).
Proof.
  induction 1 as [|x l Hl IH Hx]; [constructor |].
  rewrite filter_cons. case_decide; [| done].
  constructor; [done |]. apply Forall_forall. intros y Hy.
  apply list_elem_of_filter in Hy as [_ Hy].
  rewrite Forall_forall in Hx. by apply Hx.
Qed.

Lemma StronglySorted_take {A} (R : relation A) (n : nat) (l : list A) :
  StronglySorted R l → StronglySorted R (take n l).
Proof.
  intros Hl. revert n. induction Hl as [|x l Hl IH Hx]; intros [|n]; simpl;
    try constructor; [apply IH |].
  apply Forall_forall. intros y Hy. apply subseteq_take in Hy.
  rewrite Forall_forall in Hx. by apply Hx.
Qed.

Lemma StronglySorted_map {A B} (R : relation A) (S : relation B)
    (f : A → B) (P : A → Prop) (l : list A) :
  (∀ x y, P x → P y → R x y → S (f x) (f y)) →
  Forall P l → StronglySorted R l → StronglySorted S (map f l).
Proof.
  intros Hmono HP Hl. induction Hl as [|x l Hl IH Hx]; simpl; [constructor |].
  apply Forall_cons in HP as [HPx HPl]. constructor; [by apply IH |].
  apply Forall_fmap, Forall_forall. intros y Hy. simpl.
  rewrite Forall_forall in Hx, HPl. apply Hmono; auto.
Qed.

Lemma insert_by_distance_sorted {A} (x : A * Q) (l : list (A * Q)) :
  StronglySorted (λ a b, a.2 <= b.2) l →
  StronglySorted (λ a b, a.2 <= b.2) (Chroma.insert_by_distance x l).
Proof.
  induction 1 as [|y l Hl IH Hy]; simpl; [repeat constructor |].
  destruct (Qle_bool x.2 y.2) eqn:E.
  - apply Qle_bool_iff in E. constructor; [by constructor |].
    constructor; [done |]. eapply Forall_impl; [exact Hy |].
    intros z Hz. simpl in *. by eapply Qle_trans.
  - assert (Hyx : y.2 <= x.2).
    { apply Qlt_le_weak, Qnot_le_lt. intros Hle.
      apply Qle_bool_iff in Hle. congruence. }
    constructor; [done |].
    apply insert_by_distance_Forall; [done | done].
Qed.

Lemma nearest_first_sorted {A} (l : list (A * Q)) :
  StronglySorted (λ a b, a.2 <= b.2) (Chroma.nearest_first l).
Proof.
  unfold Chroma.nearest_first. induction l as [|x l IH]; simpl;
    [constructor | by apply insert_by_distance_sorted].
Qed.

Lemma query_sorted c e n rows :
  Chroma.query c e n = Ok rows →
  StronglySorted (λ a b : Py.str * metadata * Q, a.2 <= b.2) rows.
Proof.
  unfold Chroma.query. destruct (n <=? 0)%Z; [done |]. intros [= <-].
  apply StronglySorted_take, nearest_first_sorted.
Qed.

(** A greater distance gives a smaller similarity. *)
Lemma similarity_antitone (d1 d2 : Q) :
  0 <= d1 → d1 <= d2 → 1 / (1 + d2) <= 1 / (1 + d1).
Proof.
  intros H1 H12.
  assert (Hp1 : 0 < 1 + d1).
  { apply Qlt_le_trans with (1 + 0); [reflexivity |].
    apply Qplus_le_compat; [apply Qle_refl | done]. }
  assert (Hp2 : 0 < 1 + d2).
  { apply Qlt_le_trans with (1 + d1); [done |].
    apply Qplus_le_compat; [apply Qle_refl | done]. }
  apply Qle_shift_div_r; [done |].
  assert (Heq : 1 / (1 + d1) * (1 + d2) == (1 + d2) / (1 + d1)).
  { field. intros H0. rewrite H0 in Hp1. by apply Qlt_irrefl in Hp1. }
  rewrite Heq. apply Qle_shift_div_l; [done |]. rewrite Qmult_1_l.
  apply Qplus_le_compat; [apply Qle_refl | done].
Qed.

Lemma scored_rows_scores rows docs :
  scored_rows rows = Ok docs →
  map doc_score docs = map (λ row : Py.str * metadata * Q, 1 / (1 + row.2)) rows.
Proof.
  revert docs. induction rows as [|row rows IH]; intros docs;
    unfold scored_rows; simpl.
  - by intros [= <-].
  - destruct (truediv 1 (1 + row.2)) as [sc|] eqn:Esc; simpl; [| done].
    fold (scored_rows rows). destruct (scored_rows rows) as [docs'|];
      simpl; [| done].
    intros [= <-]. simpl. rewrite (IH docs') by done. f_equal.
    unfold truediv in Esc. destruct (Qeq_bool (1 + row.2) 0); [done |].
    by injection Esc as <-.
Qed.

Lemma candidates_sorted svc query top_k :
  StronglySorted (λ a b, b <= a) (map doc_score (candidates svc query top_k)).
Proof.
  unfold candidates. destruct (collection svc) as [c|]; [| constructor].
  destruct (_generate_improved_embeddings [query]) as [[|e es]|err]; simpl;
    try constructor.
  destruct (Chroma.query c e top_k) as [rows|err] eqn:Eq; simpl;
    [| constructor].
  destruct (scored_rows rows) as [docs|err] eqn:Es; simpl; [| constructor].
  rewrite (scored_rows_scores _ _ Es).
  eapply (StronglySorted_map (λ a b : Py.str * metadata * Q, a.2 <= b.2)
            _ _ (λ row, 0 <= row.2)).
  - intros x y Hx _ Hxy. simpl. by apply similarity_antitone.
  - by eapply query_distances_nonneg.
  - by eapply query_sorted.
Qed.

Lemma map_filter_score thr (docs : list Doc) :
  map doc_score (keep thr docs)
  = filter (λ sc, Is_true (Qle_bool thr sc)) (map doc_score docs).
Proof.
  unfold keep. induction docs as [|d docs IH]; [done |].
  simpl. rewrite !filter_cons. simpl.
  destruct (decide (Is_true (Qle_bool thr (doc_score d)))); simpl;
    by rewrite IH.
Qed.

End OrderFacts.

(** The scores returned by a similarity search are in non-increasing order:
    the chunks come nearest first, the best score at the head. *)
Theorem similarity_search_sorted
    (svc : VectorService.t) (query : Py.str) (top_k : Z) (score_threshold : Q) :
  StronglySorted (λ a b, (b <= a)%Q)
    (VectorService.similarity_search svc query top_k score_threshold).2 ∧
  StronglySorted (λ a b, (doc_score b <= doc_score a)%Q)
    (VectorService.similarity_search svc query top_k score_threshold).1.
Proof.
  rewrite similarity_search_spec. simpl.
  assert (Hscores : StronglySorted (λ a b, (b <= a)%Q)
            (map doc_score
               (VectorService.keep score_threshold
                  (VectorService.candidates svc query top_k)))).
  { rewrite map_filter_score. apply StronglySorted_filter, candidates_sorted. }
  split; [exact Hscores |].
  revert Hscores.
  generalize (VectorService.keep score_threshold
                (VectorService.candidates svc query top_k)).
  induction l as [|d l IH]; [constructor |]. simpl.
  intros Hs. apply StronglySorted_inv in Hs as [Hl Hd].
  constructor; [by apply IH |].
  rewrite Forall_forall in Hd. apply Forall_forall. intros d' Hd'.
  apply Hd, list_elem_of_fmap. by exists d'.
Qed.

(** ** Order and content of the text search *)

Section TextOrderFacts.

Import VectorService.

Lemma text_matches_tiers (terms : list Py.str) (c : Chroma.collection) :
  text_matches terms c
  = omap (λ r, if lowercase_hit terms r then Some (scored (95 # 100) r)
               else if any_hit terms r then Some (scored (9 # 10) r)
               else None) c.
Proof.
  unfold text_matches. induction c as [|r c IH]; [done |].
  cbn [omap list_omap]. rewrite IH. f_equal.
  rewrite match_score_spec. fold (lowercase_hit terms r). fold (any_hit terms r).
  by destruct (lowercase_hit terms r), (any_hit terms r).
Qed.

Lemma insert_high (r : Chroma.row) (hi lo : list Chroma.row) :
  insert_by_score (scored (95 # 100) r)
    (map (scored (95 # 100)) hi ++ map (scored (9 # 10)) lo)
  = map (scored (95 # 100)) (r :: hi) ++ map (scored (9 # 10)) lo.
Proof. by destruct hi, lo. Qed.

Lemma insert_low (r : Chroma.row) (hi lo : list Chroma.row) :
  insert_by_score (scored (9 # 10) r)
    (map (scored (95 # 100)) hi ++ map (scored (9 # 10)) lo)
  = map (scored (95 # 100)) hi ++ map (scored (9 # 10)) (r :: lo).
Proof.
  induction hi as [|h hi IH]; [by destruct lo |].
  cbn [map app insert_by_score scored doc_score].
  change (Qle_bool (95 # 100) (9 # 10)) with false. cbv iota.
  f_equal. exact IH.
Qed.

Lemma sort_text_matches (terms : list Py.str) (c : Chroma.collection) :
  sort_by_score (text_matches terms c)
  = map (scored (95 # 100)) (filter (λ r, Is_true (lowercase_hit terms r)) c)
    ++ map (scored (9 # 10))
         (filter (λ r, Is_true (any_hit terms r && negb (lowercase_hit terms r))) c).
Proof.
  rewrite text_matches_tiers. unfold sort_by_score.
  induction c as [|r c IH]; [done |].
  cbn [omap list_omap]. rewrite !filter_cons.
  destruct (lowercase_hit terms r) eqn:Ehi; cbn [negb].
  - cbn [foldr]. rewrite IH. rewrite andb_false_r.
    rewrite (decide_True (P := Is_true true)) by exact I.
    rewrite (decide_False (P := Is_true false)) by (intros []). apply insert_high.
  - rewrite andb_true_r.
    rewrite (decide_False (P := Is_true false)) by (intros []).
    destruct (any_hit terms r) eqn:Eany.
    + cbn [foldr]. rewrite IH.
      rewrite (decide_True (P := Is_true true)) by exact I. apply insert_low.
    + rewrite (decide_False (P := Is_true false)) by (intros []). exact IH.
Qed.

End TextOrderFacts.

(** The text search returns the first 10 of: the chunks in which a lowercase
    search term occurs, in the order of the store, each with score [0.95],
    followed by the chunks in which only terms that are not lowercase occur,
    in the order of the store, each with score [0.9]. *)
Theorem text_search_two_tiers (c : Chroma.collection) (query : Py.str) :
  let terms := VectorService.search_terms query in
  VectorService.text_search_fallback {| VectorService.collection := Some c |} query
  = take 10
      (map (VectorService.scored (95 # 100))
           (filter (λ r, Is_true (VectorService.lowercase_hit terms r)) c)
       ++ map (VectorService.scored (9 # 10))
            (filter (λ r, Is_true (VectorService.any_hit terms r
                                   && negb (VectorService.lowercase_hit terms r)))
                    c)).
Proof.
  intros terms. unfold VectorService.text_search_fallback.
  cbn [VectorService.collection]. fold terms. by rewrite sort_text_matches.
Qed.

(** For a query without a capitalised name and without a keyword of the
    fixed list, the text search returns the first 10 chunks, in the order of
    the store, that contain the lowercased query as a substring of their
    lowercased text, each with score [0.95]. *)
Theorem text_search_plain_query (c : Chroma.collection) (query : Py.str) :
  VectorService.name_terms query ++ VectorService.keyword_terms query = [] →
  VectorService.text_search_fallback {| VectorService.collection := Some c |} query
  = take 10
      (map (VectorService.scored (95 # 100))
           (filter (λ r, Is_true (Py.contains (Py.lower (Chroma.row_document r))
                                              (Py.lower query))) c)).
Proof.
  intros Hnone.
  unfold VectorService.text_search_fallback. cbn [VectorService.collection].
  rewrite sort_text_matches. unfold VectorService.search_terms. rewrite Hnone.
  f_equal.
  assert (Hhit : ∀ r, VectorService.lowercase_hit [Py.lower query] r
                      = Py.contains (Py.lower (Chroma.row_document r))
                                    (Py.lower query)).
  { intros r. unfold VectorService.lowercase_hit. cbn [existsb].
    rewrite lower_is_lowercase, andb_true_r, orb_false_r.
    unfold Py.lower at 2 3. rewrite map_map.
    by rewrite (map_ext _ Py.lower_char) by apply lower_char_idempotent. }
  assert (Hany : ∀ r, VectorService.any_hit [Py.lower query] r
                      = VectorService.lowercase_hit [Py.lower query] r).
  { intros r. unfold VectorService.any_hit, VectorService.lowercase_hit.
    cbn [existsb]. by rewrite lower_is_lowercase, andb_true_r. }
  induction c as [|r c IH]; [done |].
  rewrite !filter_cons, Hany, Hhit. rewrite andb_negb_r.
  rewrite (decide_False (P := Is_true false)) by (intros []).
  destruct (decide (Is_true (Py.contains _ _))); cbn [map app];
    [f_equal |]; exact IH.
Qed.

Lemma text_search_plain_query_witness :
  VectorService.name_terms (Py.s "the backend")
    ++ VectorService.keyword_terms (Py.s "the backend") = [] ∧
  map doc_content
    (VectorService.text_search_fallback Sample.team (Py.s "the backend"))
  = [Py.s "The backend uses Node.js."].
Proof.
  assert (Hnone : VectorService.name_terms (Py.s "the backend")
                    ++ VectorService.keyword_terms (Py.s "the backend") = [])
    by (vm_compute; reflexivity).
  split; [exact Hnone |].
  change Sample.team
    with {| VectorService.collection :=
              Some (default [] (VectorService.collection Sample.team)) |}.
  rewrite (text_search_plain_query _ _ Hnone). vm_compute. reflexivity.
Defined.

(** ** The feature vector and the letter case *)

Section CaseFacts.

Import VectorService.

Lemma isdigit_lower_char (c : ascii) : Py.isdigit (Py.lower_char c) = Py.isdigit c.
Proof. by destruct c as [[] [] [] [] [] [] [] []]. Qed.

Lemma percent_lower_char (c : ascii) :
  Py.eqb_char "%"%char (Py.lower_char c) = Py.eqb_char "%"%char c.
Proof. by destruct c as [[] [] [] [] [] [] [] []]. Qed.

Lemma lower_idempotent (x : Py.str) : Py.lower (Py.lower x) = Py.lower x.
Proof.
  unfold Py.lower. rewrite map_map. apply map_ext, lower_char_idempotent.
Qed.

Lemma has_digit_lower (x : Py.str) :
  existsb Py.isdigit (Py.lower x) = existsb Py.isdigit x.
Proof.
  induction x as [|c x IH]; [done |]. simpl.
  by rewrite isdigit_lower_char, IH.
Qed.

Lemma four_digits_lower prev prev' (x : Py.str) :
  Re.four_digits prev (Py.lower x) = Re.four_digits prev' x.
Proof.
  destruct x as [|a [|b [|c [|d x]]]]; try done. simpl.
  by rewrite !isdigit_lower_char.
Qed.

Lemma search_four_digits_lower prev prev' (x : Py.str) :
  Re.search_from Re.four_digits prev (Py.lower x)
  = Re.search_from Re.four_digits prev' x.
Proof.
  revert prev prev'. induction x as [|c x IH]; intros prev prev'; [done |].
  cbn [Py.lower map Re.search_from].
  change (Py.lower_char c :: map Py.lower_char x) with (Py.lower (c :: x)).
  rewrite (four_digits_lower prev prev').
  f_equal. apply IH.
Qed.

Lemma startswith_nil (x : Py.str) : Py.startswith x [] = true.
Proof. by destruct x. Qed.

Lemma contains_percent_lower (x : Py.str) :
  Py.contains (Py.lower x) (Py.s "%") = Py.contains x (Py.s "%").
Proof.
  induction x as [|c x IH]; [done |].
  cbn [Py.lower map Py.contains]. unfold Py.lower in IH. rewrite IH.
  f_equal. change (Py.s "%") with ["%"%char].
  cbn [Py.startswith]. by rewrite !startswith_nil, percent_lower_char.
Qed.

Lemma embed_lower (text : Py.str) : embed (Py.lower text) = embed text.
Proof.
  assert (Hlen : length (Py.lower text) = length text)
    by (unfold Py.lower; apply length_map).
  unfold embed.
  rewrite lower_idempotent, Hlen, has_digit_lower, contains_percent_lower.
  unfold Re.search. by rewrite (search_four_digits_lower None None).
Qed.

End CaseFacts.

(** On texts of ASCII characters, where lowercasing keeps the length, the
    feature vector depends on the text up to letter case only: two such
    texts with the same lowercase form have the same vector, and as queries
    they get the same result from the similarity search. *)
Theorem embedding_ignores_case
    (a b : Py.str) (svc : VectorService.t) (top_k : Z) (score_threshold : Q) :
  forallb Py.is_ascii a = true → forallb Py.is_ascii b = true →
  Py.lower a = Py.lower b →
  VectorService.embed a = VectorService.embed b ∧
  VectorService.similarity_search svc a top_k score_threshold
  = VectorService.similarity_search svc b top_k score_threshold.
Proof.
  intros _ _ Hab.
  assert (Hembed : VectorService.embed a = VectorService.embed b).
  { by rewrite <- (embed_lower a), <- (embed_lower b), Hab. }
  split; [exact Hembed |].
  unfold VectorService.similarity_search, VectorService.similarity_search_try,
    VectorService._generate_improved_embeddings.
  cbn [mapM]. by rewrite Hembed.
Qed.

Lemma embedding_ignores_case_witness :
  forallb Py.is_ascii (Py.s "WHO IS RAMESH?") = true ∧
  forallb Py.is_ascii (Py.s "who is Ramesh?") = true ∧
  Py.lower (Py.s "WHO IS RAMESH?") = Py.lower (Py.s "who is Ramesh?") ∧
  VectorService.similarity_search Sample.team (Py.s "WHO IS RAMESH?") 15 (1 # 100)
  = VectorService.similarity_search Sample.team (Py.s "who is Ramesh?") 15 (1 # 100).
Proof.
  assert (Ha : forallb Py.is_ascii (Py.s "WHO IS RAMESH?") = true)
    by reflexivity.
  assert (Hb : forallb Py.is_ascii (Py.s "who is Ramesh?") = true)
    by reflexivity.
  assert (Hab : Py.lower (Py.s "WHO IS RAMESH?") = Py.lower (Py.s "who is Ramesh?"))
    by (vm_compute; reflexivity).
  split; [exact Ha |]. split; [exact Hb |]. split; [exact Hab |].
  exact (proj2 (embedding_ignores_case _ _ Sample.team 15 (1 # 100) Ha Hb Hab)).
Defined.

(** ** The range of the features *)

Section FeatureFacts.

Import VectorService.

#[local] Open Scope Q_scope.

Lemma mapM_Forall2 {A B} (f : A → outcome B) (l : list A) (l' : list B) :
  mapM f l = Ok l' → Forall2 (λ x y, f x = Ok y) l l'.
Proof.
  revert l'. induction l as [|x l IH]; intros l'; simpl.
  - intros [= <-]. constructor.
  - destruct (f x) as [y|] eqn:Ey; simpl; [| done].
    destruct (mapM f l) as [k|]; simpl; [| done].
    intros [= <-]. constructor; [done | by apply IH].
Qed.

Lemma bump_bound (w : Py.str) (d : list (Py.str * nat)) (m : nat) :
  Forall (λ kc, (kc.2 ≤ m)%nat) d → Forall (λ kc, (kc.2 ≤ S m)%nat) (bump w d).
Proof.
  induction 1 as [|[k n] d Hn Hd IH]; simpl; [constructor |].
  simpl in Hn. destruct (Py.eqb k w).
  - constructor; [simpl; lia |]. eapply Forall_impl; [exact Hd |].
    intros kc Hkc. simpl in Hkc. lia.
  - constructor; [simpl; lia | done].
Qed.

Lemma count_into_bound (ws : list Py.str) (d : list (Py.str * nat)) (m : nat) :
  Forall (λ kc, (kc.2 ≤ m)%nat) d →
  Forall (λ kc, (kc.2 ≤ m + length ws)%nat) (count_into d ws).
Proof.
  unfold count_into. revert d m.
  induction ws as [|w ws IH]; intros d m Hd; simpl.
  - eapply Forall_impl; [exact Hd |]. intros kc Hkc. simpl in Hkc. lia.
  - replace (m + S (length ws))%nat with (S m + length ws)%nat by lia.
    apply IH. by apply bump_bound.
Qed.

Lemma zeroed_counts (keys : list string) :
  Forall (λ kc : Py.str * nat, (kc.2 ≤ 0)%nat) (map (λ k, (Py.s k, 0%nat)) keys).
Proof. apply Forall_fmap, Forall_forall. intros k _. simpl. lia. Qed.

(** A count divided by a total that is not smaller lies in [[0, 1]]. *)
Lemma ratio_in_unit_interval (count total : nat) (y : Q) :
  (count ≤ total)%nat → (1 ≤ total)%nat →
  truediv (of_nat count) (of_nat total) = Ok y → 0 <= y ∧ y <= 1.
Proof.
  intros Hle Hpos. rewrite truediv_of_nat by done. intros [= <-].
  assert (Htot : 0 < of_nat total).
  { unfold of_nat, Qlt. simpl. lia. }
  split.
  - apply Qle_shift_div_l; [done |]. rewrite Qmult_0_l. apply of_nat_nonneg.
  - apply Qle_shift_div_r; [done |]. rewrite Qmult_1_l.
    unfold of_nat, Qle. simpl. lia.
Qed.

Lemma capped_in_unit_interval (x : Q) :
  0 <= x → 0 <= Qmin x 1 ∧ Qmin x 1 <= 1.
Proof.
  intros Hx. split; [apply Q.min_glb; [done | discriminate] | apply Q.le_min_r].
Qed.

Lemma flag_in_unit_interval (b : bool) : 0 <= flag b ∧ flag b <= 1.
Proof. destruct b; split; discriminate. Qed.

Lemma div_nat_nonneg (n : nat) (d : Q) : 0 < d → 0 <= of_nat n / d.
Proof.
  intros Hd. apply Qle_shift_div_l; [done |]. rewrite Qmult_0_l.
  apply of_nat_nonneg.
Qed.

Lemma sum_values_lookup (m : gmap ascii nat) (k : ascii) (v : nat) :
  m !! k = Some v → (v ≤ sum_values m)%nat.
Proof.
  intros Hk. unfold sum_values.
  rewrite (map_fold_delete_L _ _ k v m); [lia | | done].
  intros. lia.
Qed.

Lemma Forall2_ratio {A} (f : A → nat) (total : nat) (l : list A) (l' : list Q) :
  (1 ≤ total)%nat → Forall (λ x, (f x ≤ total)%nat) l →
  Forall2 (λ x y, truediv (of_nat (f x)) (of_nat total) = Ok y) l l' →
  Forall (λ y, 0 <= y ∧ y <= 1) l'.
Proof.
  intros Hpos Hall H2. induction H2 as [|x y l l' Hxy _ IH]; [constructor |].
  apply Forall_cons in Hall as [Hx Hl].
  constructor; [by eapply ratio_in_unit_interval | by apply IH].
Qed.

End FeatureFacts.

(** Every feature of the vector lies in [[0, 1]]. *)
Theorem features_in_unit_interval (text : Py.str) (v : list Q) :
  VectorService.embed text = Ok v →
  Forall (λ x, (0 <= x)%Q ∧ (x <= 1)%Q) v.
Proof.
  unfold VectorService.embed.
  set (words := Re.findall Re.word (Py.lower text)).
  set (bigrams := VectorService.bigrams_of words).
  set (chars := VectorService.count_chars (Py.lower text)).
  destruct (mapM _ (VectorService.count_into VectorService.crm_keywords words))
    as [kf|] eqn:Ekf; cbn [mbind outcome_bind]; [| done].
  destruct (mapM _ (VectorService.count_into VectorService.important_bigrams bigrams))
    as [bf|] eqn:Ebf; cbn [mbind outcome_bind]; [| done].
  destruct (mapM _ (Py.s "aeioutrnslc")) as [cf|] eqn:Ecf;
    cbn [mbind outcome_bind mret outcome_ret]; [| done].
  intros Hv. injection Hv as <-.
  assert (Hkf : Forall (λ y, (0 <= y)%Q ∧ (y <= 1)%Q) kf).
  { apply mapM_Forall2 in Ekf.
    eapply (Forall2_ratio (λ kc : Py.str * nat, kc.2)); [| | exact Ekf].
    - apply or_1_positive.
    - eapply Forall_impl;
        [apply (count_into_bound words _ 0), zeroed_counts |].
      intros kc Hkc. simpl in Hkc. unfold VectorService.total_words.
      pose proof (or_1_positive (length words)).
      unfold VectorService.or_1 in *. destruct (length words =? 0) eqn:E;
        [apply Nat.eqb_eq in E |]; lia. }
  assert (Hbf : Forall (λ y, (0 <= y)%Q ∧ (y <= 1)%Q) bf).
  { apply mapM_Forall2 in Ebf.
    eapply (Forall2_ratio (λ kc : Py.str * nat, kc.2)); [| | exact Ebf].
    - unfold VectorService.total_bigrams. lia.
    - eapply Forall_impl;
        [apply (count_into_bound bigrams _ 0), zeroed_counts |].
      intros kc Hkc. simpl in Hkc. unfold VectorService.total_bigrams. lia. }
  assert (Hcf : Forall (λ y, (0 <= y)%Q ∧ (y <= 1)%Q) cf).
  { apply mapM_Forall2 in Ecf.
    eapply (Forall2_ratio (λ char, default 0%nat (chars !! char)));
      [| | exact Ecf].
    - apply or_1_positive.
    - apply Forall_forall. intros ch _.
      unfold VectorService.total_chars.
      assert (Hsum : (default 0 (chars !! ch) ≤ VectorService.sum_values chars)%nat).
      { destruct (chars !! ch) as [n|] eqn:En; simpl; [| lia].
        by eapply sum_values_lookup. }
      unfold VectorService.or_1.
      destruct (VectorService.sum_values chars =? 0) eqn:E;
        [apply Nat.eqb_eq in E |]; lia. }
  match goal with
  | |- Forall _ (if ?c then _ else _) => destruct c
  end;
    repeat (apply Forall_cons_2;
            [first [apply flag_in_unit_interval
                   | apply capped_in_unit_interval, div_nat_nonneg; reflexivity] |]).
  - apply Forall_app. split; [by rewrite !Forall_app |].
    apply Forall_replicate. split; discriminate.
  - apply Forall_take. by rewrite !Forall_app.
Qed.

Lemma features_in_unit_interval_witness :
  VectorService.embed (Py.s "Ramesh Iyer is the CTO.")
  = Ok (Chroma.row_embedding (Sample.chunk 1 "d1" "team.txt" "Ramesh Iyer is the CTO.")) ∧
  Forall (λ x, (0 <= x)%Q ∧ (x <= 1)%Q)
    (Chroma.row_embedding (Sample.chunk 1 "d1" "team.txt" "Ramesh Iyer is the CTO.")).
Proof.
  assert (Hv : VectorService.embed (Py.s "Ramesh Iyer is the CTO.")
               = Ok (Chroma.row_embedding
                       (Sample.chunk 1 "d1" "team.txt" "Ramesh Iyer is the CTO.")))
    by (vm_compute; reflexivity).
  split; [exact Hv |].
  exact (features_in_unit_interval _ _ Hv).
Defined.

(** ** Adding and deleting documents *)

Section AddDeleteFacts.

Import VectorService.

Lemma filter_all {A} (P : A → Prop) `{∀ x, Decision (P x)} (l : list A) :
  (∀ x, x ∈ l → P x) → filter P l = l.
Proof.
  induction l as [|a l IH]; intros Hall; [done |].
  rewrite filter_cons_True by (apply Hall, list_elem_of_here).
  f_equal. apply IH. intros x Hx. apply Hall. by apply list_elem_of_further.
Qed.

Lemma filter_ext_elem {A} (P Q : A → Prop)
    `{∀ x, Decision (P x)} `{∀ x, Decision (Q x)} (l : list A) :
  (∀ x, x ∈ l → P x ↔ Q x) → filter P l = filter Q l.
Proof.
  induction l as [|a l IH]; intros Hext; [done |].
  rewrite !filter_cons.
  assert (Ha : P a ↔ Q a) by apply Hext, list_elem_of_here.
  rewrite IH by (intros x Hx; apply Hext; by apply list_elem_of_further).
  destruct (decide (P a)), (decide (Q a)); tauto.
Qed.

Lemma filter_split_length {A} (P : A → Prop) `{∀ x, Decision (P x)} (l : list A) :
  length (filter P l) + length (filter (λ x, ¬ P x) l) = length l.
Proof.
  induction l as [|a l IH]; [done |]. rewrite !filter_cons.
  destruct (decide (P a)), (decide (¬ P a)); simpl; try tauto; lia.
Qed.

Lemma NoDup_map_inj {A B} (f : A → B) (l : list A) (x y : A) :
  NoDup (map f l) → x ∈ l → y ∈ l → f x = f y → x = y.
Proof.
  induction l as [|a l IH]; simpl; [by intros _ ?%elem_of_nil |].
  intros [Ha Hl]%NoDup_cons [-> | Hx]%elem_of_cons [-> | Hy]%elem_of_cons Heq;
    try done.
  - exfalso. apply Ha. rewrite Heq. apply list_elem_of_fmap. by exists y.
  - exfalso. apply Ha. rewrite <- Heq. apply list_elem_of_fmap. by exists x.
  - by apply IH.
Qed.

Lemma chunk_metadata_doc_id doc_id i doc :
  chunk_metadata doc_id i doc !! "doc_id"%string = Some (SStr doc_id).
Proof.
  unfold chunk_metadata.
  rewrite lookup_insert_ne by done. rewrite lookup_insert_ne by done.
  apply lookup_insert_eq.
Qed.

Lemma chunk_metadata_keys doc_id i doc :
  chunk_metadata doc_id i doc !! "doc_id"%string = Some (SStr doc_id) ∧
  chunk_metadata doc_id i doc !! "chunk_index"%string
  = Some (SInt (Z.of_nat i)) ∧
  chunk_metadata doc_id i doc !! "text_length"%string
  = Some (SInt (Z.of_nat (length (page_content doc)))) ∧
  ∀ key : string,
    key ∉ ["doc_id"; "chunk_index"; "text_length"]%string →
    chunk_metadata doc_id i doc !! key = metadata_of doc !! key.
Proof.
  unfold chunk_metadata. split; [| split; [| split]].
  - rewrite lookup_insert_ne by done. rewrite lookup_insert_ne by done.
    apply lookup_insert_eq.
  - rewrite lookup_insert_ne by done. apply lookup_insert_eq.
  - apply lookup_insert_eq.
  - intros key Hkey.
    apply not_elem_of_cons in Hkey as [H1 Hkey].
    apply not_elem_of_cons in Hkey as [H2 Hkey].
    apply not_elem_of_cons in Hkey as [H3 _].
    rewrite lookup_insert_ne by done. rewrite lookup_insert_ne by done.
    by rewrite lookup_insert_ne.
Qed.

Lemma embeddings_of_one (text : Py.str) (v : list Q) :
  embed text = Ok v → _generate_improved_embeddings [text] = Ok [v].
Proof.
  intros Hv. unfold _generate_improved_embeddings. simpl. by rewrite Hv.
Qed.

(** The rows built by [add_documents] from the chunks and their vectors. *)
Lemma rows_of_lookup doc_id (documents : list Document)
    (embeddings : list (list Q)) (i : nat) (r : Chroma.row) :
  rows_of (imap (λ i _, chunk_id doc_id i) documents)
          (map page_content documents)
          (imap (chunk_metadata doc_id) documents) embeddings !! i = Some r →
  ∃ doc, documents !! i = Some doc ∧
         Chroma.row_id r = chunk_id doc_id i ∧
         Chroma.row_document r = page_content doc ∧
         Chroma.row_metadata r = chunk_metadata doc_id i doc ∧
         embeddings !! i = Some (Chroma.row_embedding r).
Proof.
  unfold rows_of. intros Hr.
  apply lookup_zip_with_Some in Hr as ([id txt] & [md e] & -> & Hit & Hme).
  apply lookup_zip_with_Some in Hit as (id' & txt' & [= <- <-] & Hid & Htxt).
  apply lookup_zip_with_Some in Hme as (md' & e' & [= <- <-] & Hmd & He).
  rewrite list_lookup_imap in Hid. rewrite list_lookup_imap in Hmd.
  rewrite list_lookup_fmap in Htxt.
  destruct (documents !! i) as [doc|]; [| done].
  simpl in *. injection Hid as <-. injection Hmd as <-. injection Htxt as <-.
  by exists doc.
Qed.

Lemma rows_of_length doc_id (documents : list Document)
    (embeddings : list (list Q)) :
  length embeddings = length documents →
  length (rows_of (imap (λ i _, chunk_id doc_id i) documents)
                  (map page_content documents)
                  (imap (chunk_metadata doc_id) documents) embeddings)
  = length documents.
Proof.
  intros Hlen. unfold rows_of.
  rewrite !length_zip_with, !length_imap, length_map. lia.
Qed.

(** What [add_documents] does with a non-empty list of chunks. *)
Lemma add_documents_nonempty svc (documents : list Document) doc_id :
  documents ≠ [] →
  ∃ embeddings,
    _generate_improved_embeddings (map page_content documents) = Ok embeddings ∧
    length embeddings = length documents ∧
    add_documents svc documents doc_id
    = (match collection svc with
       | Some c =>
           {| collection :=
                Some (Chroma.add c
                        (rows_of (imap (λ i _, chunk_id doc_id i) documents)
                                 (map page_content documents)
                                 (imap (chunk_metadata doc_id) documents)
                                 embeddings)) |}
       | None => svc
       end,
       (true, Py.s "Successfully added " ++ Py.s (pretty (length documents))
              ++ Py.s " document chunks")).
Proof.
  intros Hne.
  destruct (mapM_total embed (map page_content documents)) as (embs & Hembs & Hlen).
  { intros text. destruct (embed_total text) as (v & Hv & _). by exists v. }
  exists embs. split; [done |]. split; [by rewrite Hlen, length_map |].
  unfold add_documents, add_documents_try.
  destruct documents as [|doc documents]; [done |].
  unfold _generate_improved_embeddings in *. by rewrite Hembs.
Qed.

End AddDeleteFacts.

(** [add_documents] refuses an empty list of chunks and leaves the service
    as it was.  On an initialised service whose stored ids differ from the
    ids of the new chunks, it reports success with the number of chunks and
    appends one row per chunk, in order.  The row of rank [i] has the id
    [doc_id], ["_chunk_"] and the decimal form of [i]; its text is the text
    of the chunk; its metadata has [doc_id] under ["doc_id"], [i] under
    ["chunk_index"], the number of characters of the text under
    ["text_length"] and under every other key what the metadata of the
    chunk has; its vector is the one [_generate_improved_embeddings]
    computes for the text.  The count grows by the number of chunks. *)
Theorem add_documents_appends
    (c : Chroma.collection) (documents : list Document) (doc_id : Py.str) :
  documents ≠ [] →
  (∀ (r : Chroma.row) (i : nat),
     r ∈ c → Chroma.row_id r ≠ doc_id ++ Py.s "_chunk_" ++ Py.s (pretty i)) →
  let svc := {| VectorService.collection := Some c |} in
  let result := VectorService.add_documents svc documents doc_id in
  VectorService.add_documents svc [] doc_id
  = (svc, (false, Py.s "No documents to add")) ∧
  result.2 = (true, Py.s "Successfully added "
                      ++ Py.s (pretty (length documents))
                      ++ Py.s " document chunks") ∧
  VectorService.get_collection_info result.1
  = VectorService.Active (length c + length documents) ∧
  ∃ rows,
    VectorService.collection result.1 = Some (c ++ rows) ∧
    length rows = length documents ∧
    ∀ i r, rows !! i = Some r →
      ∃ doc, documents !! i = Some doc ∧
             Chroma.row_id r = doc_id ++ Py.s "_chunk_" ++ Py.s (pretty i) ∧
             Chroma.row_document r = page_content doc ∧
             Chroma.row_metadata r !! "doc_id"%string = Some (SStr doc_id) ∧
             Chroma.row_metadata r !! "chunk_index"%string
             = Some (SInt (Z.of_nat i)) ∧
             Chroma.row_metadata r !! "text_length"%string
             = Some (SInt (Z.of_nat (length (page_content doc)))) ∧
             (∀ key : string,
                key ∉ ["doc_id"; "chunk_index"; "text_length"]%string →
                Chroma.row_metadata r !! key = metadata_of doc !! key) ∧
             VectorService._generate_improved_embeddings [page_content doc]
             = Ok [Chroma.row_embedding r].
Proof.
  intros Hne Hfresh svc result.
  destruct (add_documents_nonempty svc documents doc_id Hne)
    as (embs & Hembs & Hlen & Hadd).
  subst result. rewrite Hadd. subst svc. cbn [VectorService.collection fst snd].
  set (rows := VectorService.rows_of _ _ _ embs).
  assert (Hrows : Chroma.add c rows = c ++ rows).
  { unfold Chroma.add. f_equal. apply filter_all. intros r Hr Hin.
    apply list_elem_of_lookup in Hr as [i Hi].
    apply rows_of_lookup in Hi as (doc & _ & Hid & _).
    apply list_elem_of_fmap in Hin as (r' & Heq & Hr').
    apply (Hfresh r' i Hr'). unfold VectorService.chunk_id in Hid. congruence. }
  rewrite Hrows.
  assert (Hlenrows : length rows = length documents)
    by (by apply rows_of_length).
  split; [done |]. split; [done |]. split.
  { unfold VectorService.get_collection_info, Chroma.count. simpl.
    by rewrite length_app, Hlenrows. }
  exists rows. split; [done |]. split; [done |].
  intros i r Hr. apply rows_of_lookup in Hr as (doc & Hdoc & Hid & Htxt & Hmd & He).
  destruct (chunk_metadata_keys doc_id i doc) as (Hk1 & Hk2 & Hk3 & Hother).
  exists doc. rewrite Hmd.
  split; [done |]. split; [exact Hid |]. split; [done |].
  split; [exact Hk1 |]. split; [exact Hk2 |]. split; [exact Hk3 |].
  split; [exact Hother |].
  apply embeddings_of_one.
  apply mapM_Forall2 in Hembs.
  eapply Forall2_lookup_lr in Hembs; [exact Hembs | | exact He].
  by rewrite list_lookup_fmap, Hdoc.
Qed.

(** Deleting a document that was just added undoes the addition: when no
    stored chunk carries the document id or one of the new chunk ids,
    [add_documents] followed by [delete_document] for the same id gives back
    the store as it was and reports the number of chunks added. *)
Theorem add_then_delete_restores
    (c : Chroma.collection) (documents : list Document) (doc_id : Py.str) :
  documents ≠ [] →
  (∀ r i, r ∈ c → Chroma.row_id r ≠ VectorService.chunk_id doc_id i) →
  Chroma.get_where_doc_id c doc_id = [] →
  let svc := {| VectorService.collection := Some c |} in
  VectorService.delete_document
    (VectorService.add_documents svc documents doc_id).1 doc_id
  = (svc, (true, Py.s "Deleted " ++ Py.s (pretty (length documents))
                 ++ Py.s " document chunks")).
Proof.
  intros Hne Hfresh Habsent svc.
  destruct (add_documents_nonempty svc documents doc_id Hne)
    as (embs & Hembs & Hlen & Hadd).
  rewrite Hadd. subst svc. cbn [VectorService.collection fst].
  set (rows := VectorService.rows_of _ _ _ embs).
  assert (Hrow : ∀ r, r ∈ rows →
            (∃ i, Chroma.row_id r = VectorService.chunk_id doc_id i) ∧
            Chroma.row_metadata r !! "doc_id"%string = Some (SStr doc_id)).
  { intros r Hr. apply list_elem_of_lookup in Hr as [i Hi].
    apply rows_of_lookup in Hi as (doc & _ & Hid & _ & Hmd & _).
    split; [by exists i |]. rewrite Hmd. apply chunk_metadata_doc_id. }
  assert (Hrows : Chroma.add c rows = c ++ rows).
  { unfold Chroma.add. f_equal. apply filter_all. intros r Hr Hin.
    apply Hrow in Hr as [[i Hi] _].
    apply list_elem_of_fmap in Hin as (r' & Heq & Hr').
    apply (Hfresh r' i Hr'). congruence. }
  rewrite Hrows.
  assert (Hfound : Chroma.get_where_doc_id (c ++ rows) doc_id = rows).
  { unfold Chroma.get_where_doc_id in *. rewrite filter_app, Habsent. simpl.
    apply filter_all. intros r Hr. by apply Hrow. }
  assert (Hlenrows : length rows = length documents)
    by (by apply rows_of_length).
  assert (Hdel : Chroma.delete (c ++ rows) (map Chroma.row_id rows) = c).
  { unfold Chroma.delete. rewrite filter_app.
    rewrite (filter_all _ c), (filter_none _ rows); [apply app_nil_r | |].
    - intros r Hr Hnot. apply Hnot, list_elem_of_fmap. by exists r.
    - intros r Hr Hin. apply list_elem_of_fmap in Hin as (r' & Heq & Hr').
      apply Hrow in Hr' as [[i Hi] _]. apply (Hfresh r i Hr). congruence. }
  unfold VectorService.delete_document. cbn [VectorService.collection].
  rewrite Hfound.
  destruct (map Chroma.row_id rows) as [|id ids] eqn:Eids.
  { apply map_eq_nil in Eids. rewrite Eids in Hlenrows.
    destruct documents; [done | discriminate]. }
  rewrite Hdel. rewrite <- Eids, length_map, Hlenrows. done.
Qed.

Lemma add_documents_appends_witness :
  [Sample.release_note; Sample.release_plan] ≠ [] ∧
  (VectorService.add_documents Sample.team
     [Sample.release_note; Sample.release_plan] (Py.s "d9")).2
  = (true, Py.s "Successfully added 2 document chunks") ∧
  VectorService.get_collection_info
    (VectorService.add_documents Sample.team
       [Sample.release_note; Sample.release_plan] (Py.s "d9")).1
  = VectorService.Active 4.
Proof.
  assert (Hne : [Sample.release_note; Sample.release_plan] ≠ [])
    by discriminate.
  assert (Hfresh : ∀ (r : Chroma.row) (i : nat),
            r ∈ [Sample.chunk 0 "d1" "team.txt" "The backend uses Node.js.";
                 Sample.chunk 1 "d1" "team.txt" "Ramesh Iyer is the CTO."] →
            Chroma.row_id r
            ≠ Py.s "d9" ++ Py.s "_chunk_" ++ Py.s (pretty i)).
  { intros r i Hr Heq.
    apply elem_of_cons in Hr as [-> | Hr];
      [| apply elem_of_cons in Hr as [-> | Hr];
         [| by apply elem_of_nil in Hr]];
      apply (f_equal (take 2)) in Heq; vm_compute in Heq; discriminate. }
  split; [exact Hne |].
  pose proof (add_documents_appends _ [Sample.release_note; Sample.release_plan]
                (Py.s "d9") Hne Hfresh) as (_ & Hok & Hcount & _).
  split; [exact Hok | exact Hcount].
Defined.

Lemma add_then_delete_restores_witness :
  Chroma.get_where_doc_id [] (Py.s "d9") = [] ∧
  VectorService.delete_document
    (VectorService.add_documents Sample.empty [Sample.release_note] (Py.s "d9")).1
    (Py.s "d9")
  = (Sample.empty, (true, Py.s "Deleted 1 document chunks")).
Proof.
  assert (Hne : [Sample.release_note] ≠ []) by discriminate.
  assert (Hfresh : ∀ (r : Chroma.row) (i : nat),
            r ∈ [] → Chroma.row_id r ≠ VectorService.chunk_id (Py.s "d9") i).
  { intros r i Hr. by apply elem_of_nil in Hr. }
  assert (Habsent : Chroma.get_where_doc_id [] (Py.s "d9") = []) by reflexivity.
  split; [exact Habsent |].
  exact (add_then_delete_restores [] [Sample.release_note] (Py.s "d9")
           Hne Hfresh Habsent).
Defined.

(** On a store with distinct ids, [delete_document] removes exactly the
    chunks whose metadata carries the document id and keeps the others in
    their order; the number of chunks it found is the number it removed. *)
Theorem delete_document_exact (c : Chroma.collection) (doc_id : Py.str) :
  NoDup (map Chroma.row_id c) →
  let svc := {| VectorService.collection := Some c |} in
  let remaining :=
    filter (λ r, ¬ (Chroma.row_metadata r !! "doc_id"%string = Some (SStr doc_id))) c in
  (VectorService.delete_document svc doc_id).1
  = {| VectorService.collection := Some remaining |} ∧
  (VectorService.delete_document svc doc_id).2.1 = true ∧
  length remaining + length (Chroma.get_where_doc_id c doc_id) = length c ∧
  Chroma.get_where_doc_id remaining doc_id = [].
Proof.
  intros Hnodup svc remaining.
  destruct (delete_document_state c doc_id) as [Hstate Hok].
  assert (Hdel : Chroma.delete c
                   (map Chroma.row_id (Chroma.get_where_doc_id c doc_id))
                 = remaining).
  { unfold Chroma.delete, remaining. apply filter_ext_elem. intros r Hr. split.
    - intros Hnot Hmd. apply Hnot, list_elem_of_fmap. exists r.
      split; [done |]. by apply list_elem_of_filter.
    - intros Hmd Hin. apply Hmd.
      apply list_elem_of_fmap in Hin as (r' & Heq & Hr').
      apply list_elem_of_filter in Hr' as [Hmd' Hr'].
      by rewrite (NoDup_map_inj Chroma.row_id c r r' Hnodup Hr Hr' Heq). }
  split; [subst svc; by rewrite Hstate, Hdel |].
  split; [done |]. split.
  - unfold remaining, Chroma.get_where_doc_id.
    rewrite Nat.add_comm. apply filter_split_length.
  - unfold Chroma.get_where_doc_id, remaining. apply filter_none.
    intros r Hr Hmd. by apply list_elem_of_filter in Hr as [Hnot _].
Qed.

Lemma delete_document_exact_witness :
  NoDup (map Chroma.row_id (default [] (VectorService.collection Sample.staff))) ∧
  (VectorService.delete_document Sample.staff (Py.s "d2")).1 = Sample.empty.
Proof.
  assert (Hnodup : NoDup (map Chroma.row_id
                            (default [] (VectorService.collection Sample.staff)))).
  { assert (Hb : bool_decide
                     (NoDup (map Chroma.row_id
                               (default [] (VectorService.collection Sample.staff))))
                   = true) by (vm_compute; reflexivity).
    by apply bool_decide_eq_true in Hb. }
  split; [exact Hnodup |].
  exact (proj1 (delete_document_exact _ (Py.s "d2") Hnodup)).
Defined.

(** ** The endpoints *)

Section ApiFacts.

Lemma lstrip_head (x y : Py.str) (c : ascii) :
  Py.lstrip x = c :: y → Py.isspace c = false.
Proof.
  induction x as [|a x IH]; simpl; [done |].
  destruct (Py.isspace a) eqn:Ea; [done |]. by intros [= <- _].
Qed.

Lemma lstrip_nil (x : Py.str) :
  Py.lstrip x = [] ↔ forallb Py.isspace x = true.
Proof.
  induction x as [|a x IH]; simpl; [done |].
  destruct (Py.isspace a); simpl; [done |]. split; discriminate.
Qed.

Lemma lstrip_suffix (x : Py.str) : Py.lstrip x `suffix_of` x.
Proof.
  induction x as [|a x IH]; simpl; [done |].
  destruct (Py.isspace a); [by apply suffix_cons_r | done].
Qed.

(** A message is blank for [strip] exactly when all its characters are
    whitespace. *)
Lemma strip_nil (x : Py.str) :
  Py.strip x = [] ↔ forallb Py.isspace x = true.
Proof.
  unfold Py.strip. split.
  - intros Hnil. apply (f_equal (@rev ascii)) in Hnil.
    rewrite rev_involutive in Hnil.
    simpl in Hnil. apply lstrip_nil.
    destruct (Py.lstrip x) as [|c y] eqn:Ex; [done |]. exfalso.
    pose proof (lstrip_head _ _ _ Ex) as Hc.
    apply lstrip_nil in Hnil. rewrite forallb_forall in Hnil.
    rewrite (Hnil c) in Hc; [done |]. apply in_rev. rewrite rev_involutive.
    by left.
  - intros Hall. apply lstrip_nil in Hall. by rewrite Hall.
Qed.


Lemma clear_collection_state (c : Chroma.collection) :
  (VectorService.clear_collection {| VectorService.collection := Some c |}).1
  = {| VectorService.collection := Some [] |}.
Proof.
  unfold VectorService.clear_collection. cbn [VectorService.collection].
  destruct (map Chroma.row_id c) as [|i ids] eqn:Eids; cbn [fst].
  - apply map_eq_nil in Eids. by rewrite Eids.
  - by rewrite <- Eids, delete_all_ids.
Qed.


End ApiFacts.

(** [POST /chat] answers a message made of whitespace only (the empty
    message included) with status 500, not 400, and leaves the application
    state as it was; it answers every other message with the response of
    [process_query] and stores the sessions that [process_query] returns.  No
    message is answered with status 400. *)
Theorem chat_blank_message_is_500
    (format_2f : Q → Py.str)
    (_generate_response :
       Py.str → Py.str → bool → Py.str → ChatService.query_type → bool → Py.str)
    (str_of_http_exception : nat → Py.str → Py.str)
    (st : Api.app) (message : Py.str) (sid : string) (now1 now2 : nat) :
  let result :=
    Api.chat format_2f _generate_response str_of_http_exception
      st message sid now1 now2 in
  let answer :=
    ChatService.process_query format_2f _generate_response
      (Api.vector_service st) (Api.chat_sessions st) message sid now1 now2 in
  (forallb Py.isspace message = true →
   result
   = (Api.HTTPException 500
        (Py.s "Chat processing failed: "
           ++ str_of_http_exception 400 (Py.s "Message cannot be empty")),
      st)) ∧
  (forallb Py.isspace message = false →
   result.1 = Api.Returned answer.1 ∧
   Api.chat_sessions result.2 = answer.2 ∧
   Api.vector_service result.2 = Api.vector_service st ∧
   Api.processed_documents result.2 = Api.processed_documents st) ∧
  (∀ detail, result.1 ≠ Api.HTTPException 400 detail).
Proof.
  intros result answer. subst result. unfold Api.chat, Api.chat_try.
  destruct (Py.strip message) as [|c y] eqn:Estrip.
  - split; [done |]. split; [| done].
    intros Hnot. apply strip_nil in Estrip. congruence.
  - fold answer. destruct answer as [resp sessions]. simpl.
    split; [| done].
    intros Hall. apply strip_nil in Hall. congruence.
Qed.

Lemma chat_blank_message_is_500_witness :
  forallb Py.isspace (Py.s "   ") = true ∧
  (Api.chat (λ _, Py.s "0.00") Sample.no_answer (λ _ detail, detail)
     {| Api.vector_service := Sample.team; Api.processed_documents := ∅;
        Api.chat_sessions := ∅ |}
     (Py.s "   ") "s1" 1 2).1
  = Api.HTTPException 500
      (Py.s "Chat processing failed: Message cannot be empty").
Proof.
  assert (Hblank : forallb Py.isspace (Py.s "   ") = true) by reflexivity.
  split; [exact Hblank |].
  exact (f_equal fst
           (proj1 (chat_blank_message_is_500 (λ _, Py.s "0.00") Sample.no_answer
                     (λ _ detail, detail)
                     {| Api.vector_service := Sample.team;
                        Api.processed_documents := ∅;
                        Api.chat_sessions := ∅ |}
                     (Py.s "   ") "s1" 1 2) Hblank)).
Defined.

(** [DELETE /documents] always returns normally.  Afterwards no document is
    listed and every chat history is empty; on an initialised store the
    health check reports an active store with zero chunks, and the next
    retrieval for any query finds nothing. *)
Theorem clear_documents_resets (st : Api.app) :
  let result := Api.clear_documents st in
  (∃ vector_msg,
     result.1
     = Api.Returned (Py.s "All documents and chat history cleared", vector_msg)) ∧
  Api.get_processed_documents result.2 = [] ∧
  (∀ sid, History.get_chat_history (Api.chat_sessions result.2) sid = []) ∧
  (∀ c, VectorService.collection (Api.vector_service st) = Some c →
        Api.health_check result.2 = (Py.s "active", 0) ∧
        ∀ query, ChatService.retrieve (Api.vector_service result.2) query
                 = ([], [])).
Proof.
  intros result. subst result. unfold Api.clear_documents.
  destruct (VectorService.clear_collection (Api.vector_service st))
    as [vs [ok msg]] eqn:Eclear. simpl.
  split; [by exists msg |]. split.
  { unfold Api.get_processed_documents. simpl. by rewrite map_to_list_empty. }
  split.
  { intros sid. unfold History.get_chat_history, History.clear_all_sessions.
    by rewrite lookup_empty. }
  intros c Hc. destruct (Api.vector_service st) as [coll]. simpl in Hc. subst coll.
  pose proof (clear_collection_state c) as Hstate. rewrite Eclear in Hstate.
  simpl in Hstate. subst vs.
  split; [done |]. apply retrieve_empty_store.
Qed.

Lemma clear_documents_resets_witness :
  VectorService.collection Sample.team
  = Some (default [] (VectorService.collection Sample.team)) ∧
  Api.health_check
    (Api.clear_documents
       {| Api.vector_service := Sample.team; Api.processed_documents := ∅;
          Api.chat_sessions := Sample.one_exchange |}).2
  = (Py.s "active", 0).
Proof.
  split; [reflexivity |].
  exact (proj1 (proj2 (proj2 (proj2
    (clear_documents_resets
       {| Api.vector_service := Sample.team; Api.processed_documents := ∅;
          Api.chat_sessions := Sample.one_exchange |}))) _ eq_refl)).
Defined.


